(** * Robo-Trader decision pipeline: a shallow embedding and its properties

    The development follows the Python sources module by module:

    - [Py]        the Python operations the code relies on (exceptions,
                  [int()], [min]/[max], [sum], [str.lower], [in]);
    - [Risk]      [services/risk/risk.py] (class [RiskManager]);
    - [Signals]   [services/signals/signals.py] (class [SignalGenerator]);
    - [ApiChain]  [services/api/data_providers.py] (provider fallback chain);
    - [LibChain]  [libs/data_providers.py] (the chain with cooldowns);
    - [Pipeline]  [services/api/pipeline.py] (class [TradingPipeline]).

    Python floats are idealised as exact rationals ([Q]); every concrete
    evaluation below uses inputs on which the float computation is exact or
    far from a comparison boundary.  External collaborators (broker, Redis,
    database session, HTTP endpoints, the [ta] indicator library, the wall
    clock) are oracles: arguments of the embedded functions. *)

From Stdlib Require Import QArith Qround Qabs Lqa ZArith Lia Ascii String DecimalString.
From stdpp Require Import gmap strings list.

(** ** Python primitives *)

Module Py.

(** An exception carries its message ([str(e)]). *)
Inductive result (A : Type) : Type :=
| Ok (a : A)
| Raise (msg : string).
Arguments Ok {A} a.
Arguments Raise {A} msg.

Definition is_ok {A} (m : result A) : bool :=
  match m with Ok _ => true | Raise _ => false end.

Local Open Scope Q_scope.

(** [x < y] on numbers. *)
Definition ltb (x y : Q) : bool := negb (Qle_bool y x).

(** [int(x)]: truncation toward zero. *)
Definition int (x : Q) : Z := Z.quot (Qnum x) (Zpos (Qden x)).

(** [min(a, b)] and [max(a, b)]: the first argument wins ties. *)
Definition min (a b : Q) : Q := if ltb b a then b else a.
Definition max (a b : Q) : Q := if ltb a b then b else a.

(** [a / b] raises [ZeroDivisionError] on a zero divisor. *)
Definition div (a b : Q) : result Q :=
  if Qeq_bool b 0 then Raise "float division by zero" else Ok (a / b).

(** [sum(xs)]: left to right from [0]. *)
Definition sum (xs : list Q) : Q := fold_left Qplus xs 0.

(** [str(n)] for a length. *)
Definition str_nat (n : nat) : string := NilEmpty.string_of_uint (Nat.to_uint n).

(** [s.lower()] on ASCII. *)
Definition lower_ascii (c : ascii) : ascii :=
  let n := Ascii.nat_of_ascii c in
  if (Nat.leb 65 n && Nat.leb n 90)%bool then Ascii.ascii_of_nat (n + 32) else c.

Fixpoint lower (s : string) : string :=
  match s with
  | EmptyString => EmptyString
  | String c r => String (lower_ascii c) (lower r)
  end.

(** [needle in s]. *)
Fixpoint startswith (needle s : string) : bool :=
  match needle, s with
  | EmptyString, _ => true
  | String _ _, EmptyString => false
  | String a n, String b r => if Ascii.eqb a b then startswith n r else false
  end.

Fixpoint contains (needle s : string) : bool :=
  if startswith needle s then true
  else match s with
       | EmptyString => false
       | String _ r => contains needle r
       end.

End Py.

Notation "'do!' x <- m ; k" := (match m with Py.Ok x => k | Py.Raise e => Py.Raise e end)
  (at level 10, x name, m at level 100, k at level 200, only parsing).

(** ** services/signals/signals.py *)

Module Signals.
Import Py.
Local Open Scope Q_scope.

(** A [PriceData] row. *)
Record PriceData := {
  date : Z; open : Q; high : Q; low : Q; close : Q; volume : Q
}.

(** One entry of the [factors] table of the strategy configuration. *)
Record FactorConfig := {
  weight : option Q;
  enabled : option bool
}.

(** [self.strategy_config]; [factors] is [None] when the key is absent. *)
Record StrategyConfig := {
  factors : option (gmap string FactorConfig)
}.

Definition on (w : Q) : FactorConfig := {| weight := Some w; enabled := Some true |}.

(** The default returned by [_load_strategy_config]. *)
Definition default_factors : gmap string FactorConfig :=
  <["momentum_12_1" := on 0.25]> (
  <["rsi_14" := on 0.15]> (
  <["macd" := on 0.20]> (
  <["volume_surge" := on 0.15]> (
  <["earnings_drift" := on 0.15]> (
  <["news_sentiment" := on 0.10]> ∅))))).

Definition default_config : StrategyConfig := {| factors := Some default_factors |}.

(** [xs.iloc[-k]] for [k <= len(xs)]. *)
Definition iloc_neg {A} (k : nat) (xs : list A) (d : A) : A :=
  nth (length xs - k) xs d.

Definition calculate_momentum (prices : list PriceData) : Q :=
  if (length prices <? 252)%nat then 0
  else
    let price_12m_ago := iloc_neg 252 (map close prices) 0 in
    let price_1m_ago := iloc_neg 21 (map close prices) 0 in
    if Py.ltb 0 price_12m_ago
    then (price_1m_ago - price_12m_ago) / price_12m_ago
    else 0.


(** The factor dictionary built by [generate_signals]. *)
Definition factor_map (m r h v : Q) : list (string * Q) :=
  [ ("momentum"%string, m); ("rsi"%string, r);
    ("macd_histogram"%string, h); ("volume_surge"%string, v) ].

Section Indicators.
(** The [ta] indicators on the close series (last value) and [np.exp]. *)
Variable ta_rsi : nat -> list Q -> Q.
Variable ta_macd_signal : list Q -> Q.
Variable ta_macd_diff : list Q -> Q.
Variable np_exp : Q -> Q.

Definition calculate_rsi (prices : list PriceData) (period : nat) : Q :=
  if (length prices <? period)%nat then 50
  else ta_rsi period (map close prices).

(** The dictionary with keys [signal] and [histogram], as a pair. *)
Definition calculate_macd (prices : list PriceData) : Q * Q :=
  if (length prices <? 26)%nat then (0, 0)
  else (ta_macd_signal (map close prices), ta_macd_diff (map close prices)).

Definition calculate_volume_surge (prices : list PriceData) (lookback : nat) : Q :=
  if (length prices <? lookback)%nat then 0
  else
    let window := drop (length prices - lookback) (map volume prices) in
    let avg_volume := Py.sum window / inject_Z (Z.of_nat lookback) in
    let current_volume := iloc_neg 1 (map volume prices) 0 in
    if Py.ltb 0 avg_volume then current_volume / avg_volume else 1.

(** [factors.get(name, d)] on the insertion-ordered factor dictionary. *)
Fixpoint get (name : string) (fs : list (string * Q)) (d : Q) : Q :=
  match fs with
  | [] => d
  | (k, v) :: rest => if String.eqb k name then v else get name rest d
  end.

Definition generate_llm_rationale (sym : string) (fs : list (string * Q)) : string :=
  let momentum := get "momentum" fs 0 in
  let rsi := get "rsi" fs 50 in
  let vol := get "volume_surge" fs 1 in
  let s1 := if Py.ltb 0.5 momentum then ["strong momentum"%string]
            else if Py.ltb momentum (-0.5) then ["weak momentum"%string] else [] in
  let s2 := if Py.ltb 70 rsi then s1 ++ ["overbought RSI"%string]
            else if Py.ltb rsi 30 then s1 ++ ["oversold RSI"%string] else s1 in
  let s3 := if Py.ltb 1.5 vol then s2 ++ ["high volume"%string] else s2 in
  match s3 with
  | [] => sym +:+ ": neutral signals"
  | _ => sym +:+ ": " +:+ String.concat ", " s3
  end.

Definition normalize_factor (factor_name : string) (value : Q) : Q :=
  if String.eqb factor_name "momentum" then
    Py.max 0 (Py.min 1 ((value + 0.5) / 1))
  else if String.eqb factor_name "rsi" then
    if Py.ltb value 30 then 0.8 + (30 - value) / 150
    else if Py.ltb 70 value then 0.2 - (value - 70) / 150
    else 0.5
  else if String.eqb factor_name "macd_histogram" then
    1 / (1 + np_exp (- value * 10))
  else if String.eqb factor_name "volume_surge" then
    if Py.ltb 2 value then Py.min 1 (0.5 + (value - 1) * 0.25) else 0.5
  else 0.5.

(** The loop of [calculate_composite_score] over [factors.items()], with
    its two accumulators. *)
Fixpoint composite_loop (weights : gmap string FactorConfig)
    (fs : list (string * Q)) (total_weight weighted_sum : Q) : Q * Q :=
  match fs with
  | [] => (total_weight, weighted_sum)
  | (factor_name, factor_value) :: rest =>
    match weights !! factor_name with
    | Some fc =>
      if default true (enabled fc) then
        let w := default 0 (weight fc) in
        let normalized_value := normalize_factor factor_name factor_value in
        composite_loop weights rest (total_weight + w) (weighted_sum + normalized_value * w)
      else composite_loop weights rest total_weight weighted_sum
    | None => composite_loop weights rest total_weight weighted_sum
    end
  end.

Definition calculate_composite_score (self : StrategyConfig) (fs : list (string * Q)) : Q :=
  let weights := default ∅ (factors self) in
  let '(total_weight, weighted_sum) := composite_loop weights fs 0 0 in
  if Py.ltb 0 total_weight then weighted_sum / total_weight else 0.5.

(** A row of the [Signal] audit table, as added to the session. *)
Record SignalRow := {
  row_symbol : string;
  factor_name : string;
  raw_value : Q;
  normalized_score : Q;
  row_weight : Q;
  row_rationale : option string
}.

(** An entry of the list returned by [generate_signals]. *)
Record SignalEntry := {
  symbol : string;
  score : Q;
  entry_factors : list (string * Q);
  rationale : string;
  action : string
}.

(** The body of the per-symbol [try] once the price rows are loaded:
    [None] is the [continue] on insufficient data, [Raise] an exception
    caught and logged by the per-symbol handler. *)
Definition score_symbol (self : StrategyConfig) (sym : string)
    (prices : list PriceData) : option (result (SignalEntry * list SignalRow)) :=
  if (length prices <? 20)%nat then None
  else Some (
    let fs := [ ("momentum"%string, calculate_momentum prices);
                ("rsi"%string, calculate_rsi prices 14);
                ("macd_histogram"%string, snd (calculate_macd prices));
                ("volume_surge"%string, calculate_volume_surge prices 20) ] in
    let sc := calculate_composite_score self fs in
    let rat := generate_llm_rationale sym fs in
    match factors self with
    | None => Raise "'factors'"
    | Some table =>
      let rows := map (fun '(name, value) =>
          {| row_symbol := sym;
             factor_name := name;
             raw_value := value;
             normalized_score := normalize_factor name value;
             row_weight := match table !! name with
                           | Some fc => default 0 (weight fc)
                           | None => 0
                           end;
             row_rationale := if String.eqb name "momentum" then Some rat else None |}) fs in
      Ok ({| symbol := sym; score := sc; entry_factors := fs; rationale := rat;
             action := if Py.ltb 0.6 sc then "buy"
                       else if Py.ltb sc 0.4 then "sell" else "hold" |}, rows)
    end).

(** The first pass of [generate_signals]: [history] is the result of the
    price query for a symbol (rows of the last 365 days, by date);
    [signals] is the returned list and [session] the rows added. *)
Fixpoint signals_loop (self : StrategyConfig) (history : string -> list PriceData)
    (symbols : list string) (signals : list SignalEntry) (session : list SignalRow)
    : list SignalEntry * list SignalRow :=
  match symbols with
  | [] => (signals, session)
  | sym :: rest =>
    match score_symbol self sym (history sym) with
    | Some (Ok (entry, rows)) =>
      signals_loop self history rest (signals ++ [entry]) (session ++ rows)
    | Some (Raise _) | None => signals_loop self history rest signals session
    end
  end.

Definition generate_signals (self : StrategyConfig) (universe : list string)
    (history : string -> list PriceData) (symbols : list string)
    : list SignalEntry * list SignalRow :=
  let symbols := match symbols with [] => universe | _ => symbols end in
  signals_loop self history symbols [] [].

End Indicators.

End Signals.

(** ** services/risk/risk.py *)

Module Risk.
Import Py.
Local Open Scope Q_scope.

(** [self.config]: the keys the code reads, [None] when absent. *)
Record RiskConfig := {
  stop_loss_pct : option Q;
  take_profit_pct : option Q
}.

Record RiskManager := {
  config : RiskConfig;
  max_position_size : Q;     (* RISK_MAX_SINGLE_NAME *)
  max_gross_exposure : Q;    (* RISK_GROSS_MAX *)
  max_net_exposure : Q;      (* RISK_NET_MAX *)
  daily_drawdown_halt : Q    (* DAILY_DRAWDOWN_HALT *)
}.

(** [RiskManager()] with no environment overrides and no config file. *)
Definition default_manager : RiskManager := {|
  config := {| stop_loss_pct := Some 0.05; take_profit_pct := Some 0.15 |};
  max_position_size := 0.02;
  max_gross_exposure := 0.60;
  max_net_exposure := 0.40;
  daily_drawdown_halt := 0.02
|}.

(** An order dictionary; optional keys are [None] when absent. *)
Record Order := {
  symbol : string;
  side : string;
  qty : Z;
  order_type : option string;
  price : option Q;
  stop_loss : option Q;
  take_profit : option Q;
  confidence : option Q
}.

(** A position dictionary as read through [p.get(..)]. *)
Record Position := {
  p_market_value : option Q;
  p_qty : option Q
}.

(** The account dictionary as read through [account_data.get(..)]. *)
Record AccountData := {
  equity : option Q;
  last_equity : option Q
}.

Definition calculate_position_size (self : RiskManager) (sym : string)
    (signal_strength account_equity current_price : Q) : result Z :=
  let max_position_value := account_equity * max_position_size self in
  let adjusted_value := max_position_value * Py.min 1 signal_strength in
  do! q <- Py.div adjusted_value current_price ;
  let shares := Py.int q in
  do! h <- Py.div 100 current_price ;
  let min_shares := Z.max 1 (Py.int h) in
  do! c <- Py.div 50000 current_price ;
  let max_shares := Py.int c in
  Ok (Z.max min_shares (Z.min shares max_shares)).

Definition current_gross_of (ps : list Position) : Q :=
  Py.sum (map (fun p => Qabs (default 0 (p_market_value p))) ps).
Definition current_long_of (ps : list Position) : Q :=
  Py.sum (map (fun p => default 0 (p_market_value p))
              (List.filter (fun p => Py.ltb 0 (default 0 (p_qty p))) ps)).
Definition current_short_of (ps : list Position) : Q :=
  Py.sum (map (fun p => Qabs (default 0 (p_market_value p)))
              (List.filter (fun p => Py.ltb (default 0 (p_qty p)) 0) ps)).

Definition order_value_of (order : Order) : Q :=
  inject_Z (qty order) * default 100 (price order).

Section Formatting.
(** [f"{x:.0f}"] and [f"{x:.2%}"]: the float formatters. *)
Variable fmt_f0 : Q -> string.
Variable fmt_pct2 : Q -> string.

(** The [for order in proposed_orders] loop of [check_exposure_limits];
    [current_gross], [current_long] and [current_short] are the locals
    computed before the loop, [approved] and [violations] the two lists
    the loop appends to. *)
Fixpoint exposure_loop (self : RiskManager) (account_equity : Q)
    (current_gross current_long current_short : Q)
    (proposed : list Order) (approved : list Order) (violations : list string)
    : result (list Order * list string) :=
  match proposed with
  | [] => Ok (approved, violations)
  | order :: rest =>
    let order_value := order_value_of order in
    if Py.ltb (account_equity * max_position_size self) order_value then
      exposure_loop self account_equity current_gross current_long current_short rest
        approved
        (violations ++ [symbol order +:+ ": Position size $" +:+ fmt_f0 order_value
                                     +:+ " exceeds limit"])
    else
      let new_gross := current_gross + Qabs order_value in
      if Py.ltb (account_equity * max_gross_exposure self) new_gross then
        exposure_loop self account_equity current_gross current_long current_short rest
          approved
          (violations ++ [symbol order +:+ ": Would exceed gross exposure limit"])
      else
        do! new_net <- (if String.eqb (side order) "buy"
                    then Py.div (current_long - current_short + order_value) account_equity
                    else Py.div (current_long - current_short - order_value) account_equity) ;
        if Py.ltb (max_net_exposure self) (Qabs new_net) then
          exposure_loop self account_equity current_gross current_long current_short rest
            approved
            (violations ++ [symbol order +:+ ": Would exceed net exposure limit"])
        else
          exposure_loop self account_equity current_gross current_long current_short rest
            (approved ++ [order]) violations
  end.

Definition check_exposure_limits (self : RiskManager) (proposed_orders : list Order)
    (current_positions : list Position) (account_equity : Q)
    : result (list Order * list string) :=
  let current_gross := current_gross_of current_positions in
  let current_long := current_long_of current_positions in
  let current_short := current_short_of current_positions in
  exposure_loop self account_equity current_gross current_long current_short
    proposed_orders [] [].

Definition check_circuit_breakers (self : RiskManager) (account_data : AccountData)
    : bool * string :=
  let equity := default 0 (equity account_data) in
  let last_equity := default equity (last_equity account_data) in
  if Py.ltb 0 last_equity then
    let daily_return := (equity - last_equity) / last_equity in
    if Py.ltb daily_return (- daily_drawdown_halt self) then
      (false, "Daily drawdown limit hit: " +:+ fmt_pct2 daily_return)
    else (true, "All circuit breakers passed"%string)
  else (true, "All circuit breakers passed"%string).

End Formatting.

Definition calculate_stop_loss (self : RiskManager) (entry_price : Q) (sd : string) : Q :=
  let pct := default 0.05 (stop_loss_pct (config self)) in
  if String.eqb sd "buy" then entry_price * (1 - pct) else entry_price * (1 + pct).

Definition calculate_take_profit (self : RiskManager) (entry_price : Q) (sd : string) : Q :=
  let pct := default 0.15 (take_profit_pct (config self)) in
  if String.eqb sd "buy" then entry_price * (1 + pct) else entry_price * (1 - pct).

(** [sorted(signals, key=score, reverse=True)]: descending and stable. *)
Fixpoint insert_by_score (s : Signals.SignalEntry) (sorted : list Signals.SignalEntry)
    : list Signals.SignalEntry :=
  match sorted with
  | [] => [s]
  | x :: rest =>
    if Py.ltb (Signals.score x) (Signals.score s) then s :: x :: rest
    else x :: insert_by_score s rest
  end.

Definition sorted_by_score (signals : list Signals.SignalEntry) : list Signals.SignalEntry :=
  fold_left (fun acc s => insert_by_score s acc) signals [].

Section Portfolio.
(** The latest [PriceData] row of a symbol, as the session returns it. *)
Variable latest_price : string -> result (option Signals.PriceData).

(** The loop of [optimize_portfolio] with its locals [orders] and
    [total_allocated]. *)
Fixpoint optimize_loop (self : RiskManager) (account_equity : Q)
    (signals : list Signals.SignalEntry) (orders : list Order) (total_allocated : Q)
    : result (list Order) :=
  match signals with
  | [] => Ok orders
  | signal :: rest =>
    if negb (String.eqb (Signals.action signal) "buy") then
      optimize_loop self account_equity rest orders total_allocated
    else
      do! latest <- latest_price (Signals.symbol signal) ;
      match latest with
      | None => optimize_loop self account_equity rest orders total_allocated
      | Some row =>
        let current_price := Signals.close row in
        do! position_size <-
          calculate_position_size self (Signals.symbol signal) (Signals.score signal)
            (account_equity - total_allocated) current_price ;
        if (0 <? position_size)%Z then
          let order_value := inject_Z position_size * current_price in
          if Py.ltb (account_equity * max_gross_exposure self)
                    (total_allocated + order_value)
          then Ok orders
          else
            optimize_loop self account_equity rest
              (orders ++ [ {| symbol := Signals.symbol signal;
                              side := "buy";
                              qty := position_size;
                              order_type := Some "market"%string;
                              price := Some current_price;
                              stop_loss := Some (calculate_stop_loss self current_price "buy");
                              take_profit := Some (calculate_take_profit self current_price "buy");
                              confidence := Some (Signals.score signal) |} ])
              (total_allocated + order_value)
        else optimize_loop self account_equity rest orders total_allocated
      end
  end.

Definition optimize_portfolio (self : RiskManager) (signals : list Signals.SignalEntry)
    (account_data : AccountData) : result (list Order) :=
  let account_equity := default 100000 (equity account_data) in
  let sorted_signals := sorted_by_score signals in
  optimize_loop self account_equity (take 20 sorted_signals) [] 0.
End Portfolio.

(** The dictionary returned by [calculate_risk_metrics]. *)
Record RiskMetrics := {
  gross_exposure : Q;
  net_exposure : Q;
  position_count : nat;
  max_position_pct : Q;
  current_gross : Q;
  current_net : Q;
  proposed_value : Q
}.

Definition calculate_risk_metrics (self : RiskManager) (orders : list Order)
    (positions : list Position) (account_equity : Q) : RiskMetrics :=
  let cur_gross := current_gross_of positions in
  let cur_long := current_long_of positions in
  let cur_short := current_short_of positions in
  let order_value := Py.sum (map order_value_of orders) in
  let total_gross := cur_gross + Qabs order_value in
  let total_net := cur_long - cur_short + order_value in
  {| gross_exposure := if Py.ltb 0 account_equity then total_gross / account_equity else 0;
     net_exposure := if Py.ltb 0 account_equity then total_net / account_equity else 0;
     position_count := length positions + length orders;
     max_position_pct := max_position_size self;
     current_gross := cur_gross;
     current_net := cur_long - cur_short;
     proposed_value := order_value |}.

(** The total value of a list of orders, as [optimize_portfolio] adds it up. *)
Definition allocated_value (orders : list Order) : Q :=
  Py.sum (map order_value_of orders).

(** An order as [optimize_portfolio] builds them, for one of [signals]. *)
Definition sized_buy (signals : list Signals.SignalEntry) (o : Order) : Prop :=
  side o = "buy"%string /\ (1 <= qty o)%Z /\ order_type o = Some "market"%string
  /\ is_Some (price o) /\ is_Some (stop_loss o) /\ is_Some (take_profit o)
  /\ exists s, In s signals /\ Signals.action s = "buy"%string
               /\ Signals.symbol s = symbol o /\ confidence o = Some (Signals.score s).

(** A formatter to evaluate with; no property below depends on it. *)
Definition fmt_any (x : Q) : string := "?".

(** The three tests of the loop body on one order, against given totals:
    [true] when the order reaches [approved_orders.append(order)]. *)
Definition order_passes_totals (self : RiskManager) (account_equity : Q)
    (current_gross current_long current_short : Q) (order : Order) : bool :=
  let order_value := order_value_of order in
  negb (Py.ltb (account_equity * max_position_size self) order_value)
  && negb (Py.ltb (account_equity * max_gross_exposure self)
                  (current_gross + Qabs order_value))
  && negb (Py.ltb (max_net_exposure self)
             (Qabs (if String.eqb (side order) "buy"
                    then (current_long - current_short + order_value) / account_equity
                    else (current_long - current_short - order_value) / account_equity))).

(** The same tests against the totals of the current positions alone. *)
Definition order_passes (self : RiskManager) (current_positions : list Position)
    (account_equity : Q) (order : Order) : bool :=
  order_passes_totals self account_equity
    (current_gross_of current_positions) (current_long_of current_positions)
    (current_short_of current_positions) order.

(** An order that, taken alone against an empty book, is within the
    single-name, gross and net limits. *)
Definition within_limits_alone (self : RiskManager) (account_equity : Q)
    (order : Order) : Prop :=
  order_value_of order <= account_equity * max_position_size self
  /\ Qabs (order_value_of order) <= account_equity * max_gross_exposure self
  /\ Qabs (order_value_of order / account_equity) <= max_net_exposure self.

(** A configuration in which two single-name budgets exceed the gross
    budget (RISK_MAX_SINGLE_NAME=0.5, RISK_GROSS_MAX=0.75, RISK_NET_MAX=0.5). *)
Definition wide_manager : RiskManager := {|
  config := {| stop_loss_pct := None; take_profit_pct := None |};
  max_position_size := 0.5;
  max_gross_exposure := 0.75;
  max_net_exposure := 0.5;
  daily_drawdown_halt := 0.02
|}.

Definition buy_order (sym : string) (n : Z) (p : Q) : Order := {|
  symbol := sym; side := "buy"; qty := n; order_type := Some "market"%string;
  price := Some p; stop_loss := None; take_profit := None; confidence := None
|}.

End Risk.

(** ** Data providers (both provider modules) *)

Module Providers.
Import Py.

(** A [pd.DataFrame] of daily bars: its rows. *)
Definition DataFrame : Type := list Signals.PriceData.

(** [df.empty]. *)
Definition empty (df : DataFrame) : bool :=
  match df with [] => true | _ => false end.

(** The four provider classes. *)
Inductive kind := Finnhub | AlphaVantage | Polygon | YFinance.

(** What one request for one symbol comes to inside a provider's
    per-symbol [try]: a parsed frame, a response without data (or another
    HTTP status), the provider's rate-limit signal (status 429 or 403, a
    [Note]/[Information] body, a [NOTOK] body), or an exception, which
    the per-symbol handler logs. *)
Inductive reply :=
| Bars (df : DataFrame)
| NoData
| RateLimited
| Failed.

(** A provider object: its class, whether its key (or import) is there,
    and what the remote service answers for each symbol. *)
Record DataProvider := {
  provider_kind : kind;
  configured : bool;
  respond : string -> reply
}.

Definition is_available (p : DataProvider) : bool := configured p.

(** The [for symbol in symbols] loop shared by the four classes.
    [stop_on_limit]: the class has a [break] on the rate-limit signal;
    [skip_empty]: the class stores a frame only when it is not empty
    (Yahoo Finance's [if not hist.empty]). *)
Fixpoint fetch_loop (stop_on_limit skip_empty : bool) (respond : string -> reply)
    (symbols : list string) (results : gmap string DataFrame) : gmap string DataFrame :=
  match symbols with
  | [] => results
  | sym :: rest =>
    match respond sym with
    | Bars df =>
      if skip_empty && empty df
      then fetch_loop stop_on_limit skip_empty respond rest results
      else fetch_loop stop_on_limit skip_empty respond rest (<[sym := df]> results)
    | RateLimited =>
      if stop_on_limit then results
      else fetch_loop stop_on_limit skip_empty respond rest results
    | NoData | Failed => fetch_loop stop_on_limit skip_empty respond rest results
    end
  end.

Definition skips_empty (k : kind) : bool :=
  match k with YFinance => true | _ => false end.

(** The loop [for symbol, df in results.items()] of the chain: a non-empty
    frame is stored and its symbol leaves [remaining_symbols]. *)
Definition merge_results (results : gmap string DataFrame)
    (st : gmap string DataFrame * gset string) : gmap string DataFrame * gset string :=
  fold_left (fun '(all_results, remaining_symbols) '(sym, df) =>
               if empty df then (all_results, remaining_symbols)
               else (<[sym := df]> all_results, remaining_symbols ∖ {[sym]}))
            (map_to_list results) st.

(** What a chain maintains about its two locals, for a request [S]: the
    stored symbols and the remaining ones split [S], and every stored
    frame has a row. *)
Definition partitions (S : gset string)
    (st : gmap string DataFrame * gset string) : Prop :=
  dom (fst st) ∪ snd st = S
  /\ dom (fst st) ∩ snd st = ∅
  /\ forall sym df, fst st !! sym = Some df -> df <> [].

(** Concrete providers to evaluate with: one without key, one that is
    configured and never has data, one that is configured and returns a
    one-row frame for every symbol. *)
Definition unconfigured (k : kind) : DataProvider :=
  {| provider_kind := k; configured := false; respond := fun _ => NoData |}.
Definition silent (k : kind) : DataProvider :=
  {| provider_kind := k; configured := true; respond := fun _ => NoData |}.
Definition one_bar : Signals.PriceData :=
  {| Signals.date := 0; Signals.open := 1; Signals.high := 1; Signals.low := 1;
     Signals.close := 1; Signals.volume := 1 |}.
Definition generous (k : kind) : DataProvider :=
  {| provider_kind := k; configured := true; respond := fun _ => Bars [one_bar] |}.

(** A call of [provider.fetch_daily_bars] made by a chain: provider name,
    requested batch, outcome. *)
Definition call : Type := string * list string * result (gmap string DataFrame).

Definition call_name (c : call) : string := fst (fst c).
Definition call_batch (c : call) : list string := snd (fst c).
Definition call_outcome (c : call) : result (gmap string DataFrame) := snd c.

(** A call as the chains make them: to a configured provider of the list,
    with a non-empty batch of requested symbols, and answered. *)
Definition proper_call (providers : list (string * DataProvider)) (requested : gset string)
    (c : call) : Prop :=
  call_batch c <> []
  /\ (forall sym, sym ∈ call_batch c -> sym ∈ requested)
  /\ (exists p, In (call_name c, p) providers /\ configured p = true)
  /\ exists results, call_outcome c = Ok results.

(** Every non-empty frame of an answered call is in the dictionary [final]. *)
Definition frames_delivered (final : gmap string DataFrame) (c : call) : Prop :=
  forall results sym df,
    call_outcome c = Ok results -> results !! sym = Some df -> df <> [] ->
    final !! sym = Some df.

End Providers.

(** ** services/api/data_providers.py *)

Module ApiChain.
Import Py Providers.

Definition stops_on_limit (k : kind) : bool :=
  match k with AlphaVantage => true | _ => false end.

(** [provider.fetch_daily_bars(symbols, days)]. *)
Definition provider_fetch (p : DataProvider) (symbols : list string)
    : result (gmap string DataFrame) :=
  if negb (is_available p) then Raise "API key not configured"
  else Ok (fetch_loop (stops_on_limit (provider_kind p)) (skips_empty (provider_kind p))
             (respond p) symbols ∅).

(** [DataProviderChain.__init__]: the fixed priority list. *)
Definition providers_of (finnhub alpha_vantage polygon yfinance : DataProvider)
    : list (string * DataProvider) :=
  [ ("Finnhub"%string, finnhub); ("Alpha Vantage"%string, alpha_vantage);
    ("Polygon"%string, polygon); ("Yahoo Finance"%string, yfinance) ].

Section Chain.
(** [list(remaining_symbols)]: some enumeration of the set. *)
Variable listing : gset string -> list string.

(** The [for provider_name, provider in self.providers] loop;
    [all_results] and [remaining_symbols] are the two locals, [calls]
    records the provider calls made. *)
Fixpoint chain_loop (providers : list (string * DataProvider))
    (all_results : gmap string DataFrame) (remaining_symbols : gset string)
    (calls : list call) : gmap string DataFrame * gset string * list call :=
  match providers with
  | [] => (all_results, remaining_symbols, calls)
  | (provider_name, provider) :: rest =>
    if decide (remaining_symbols = ∅) then (all_results, remaining_symbols, calls)
    else if negb (is_available provider) then
      chain_loop rest all_results remaining_symbols calls
    else
      let batch := listing remaining_symbols in
      let outcome := provider_fetch provider batch in
      let calls := calls ++ [(provider_name, batch, outcome)] in
      match outcome with
      | Ok results =>
        let '(all_results, remaining_symbols) :=
          merge_results results (all_results, remaining_symbols) in
        chain_loop rest all_results remaining_symbols calls
      | Raise _ => chain_loop rest all_results remaining_symbols calls
      end
  end.

(** [fetch_daily_bars]: the returned dictionary, the symbols left in
    [remaining_symbols], and the calls made. *)
Definition fetch_daily_bars (providers : list (string * DataProvider))
    (symbols : list string) : gmap string DataFrame * gset string * list call :=
  chain_loop providers ∅ (list_to_set symbols) [].
End Chain.

End ApiChain.

(** ** libs/data_providers.py *)

Module LibChain.
Import Py Providers.
Local Open Scope Q_scope.

Definition stops_on_limit (k : kind) : bool :=
  match k with YFinance => false | _ => true end.

(** [provider.fetch_daily_bars(symbols, days)]; Alpha Vantage keeps the
    first five symbols only. *)
Definition provider_fetch (p : DataProvider) (symbols : list string)
    : result (gmap string DataFrame) :=
  if negb (is_available p) then Raise "API key not configured"
  else
    let symbols_to_fetch :=
      match provider_kind p with AlphaVantage => take 5 symbols | _ => symbols end in
    Ok (fetch_loop (stops_on_limit (provider_kind p)) (skips_empty (provider_kind p))
          (respond p) symbols_to_fetch ∅).

(** [DataProviderChain.__init__]: Yahoo Finance first, Finnhub second. *)
Definition providers_of (yfinance finnhub : DataProvider) : list (string * DataProvider) :=
  [ ("Yahoo Finance"%string, yfinance); ("Finnhub"%string, finnhub) ].

(** The locals of [fetch_daily_bars], the attribute
    [self.provider_cooldowns] (which outlives the call), and the number of
    [time.time()] readings taken so far in this call. *)
Record state := {
  all_results : gmap string DataFrame;
  remaining_symbols : gset string;
  provider_cooldowns : gmap string Q;
  reads : nat
}.

(** The two locals that hold the answer. *)
Definition locals (st : state) : gmap string DataFrame * gset string :=
  (all_results st, remaining_symbols st).

Section Chain.
(** [list(remaining_symbols)]: some enumeration of the set. *)
Variable listing : gset string -> list string.
(** The successive values of [time.time()] during the call. *)
Variable clock : nat -> Q.

(** [self.provider_cooldowns[name] = time.time() + 60]. *)
Definition set_cooldown (name : string) (st : state) : state := {|
  all_results := all_results st;
  remaining_symbols := remaining_symbols st;
  provider_cooldowns := <[name := clock (reads st) + 60]> (provider_cooldowns st);
  reads := S (reads st)
|}.

(** The body of the [try] for a provider that is out of cooldown and
    available, with the call it makes (if any).  The [time.sleep] pauses
    change none of the locals; their passing shows in later clock readings. *)
Definition attempt (provider_name : string) (provider : DataProvider) (st : state)
    : state * option call :=
  if String.eqb provider_name "Alpha Vantage"
     && (10 <? size (remaining_symbols st))%nat then (st, None)
  else
    let everything := listing (remaining_symbols st) in
    let symbols_to_fetch :=
      if String.eqb provider_name "Alpha Vantage" then take 3 everything
      else if String.eqb provider_name "Polygon" then take 10 everything
      else everything in
    let outcome := provider_fetch provider symbols_to_fetch in
    let made := Some (provider_name, symbols_to_fetch, outcome) in
    match outcome with
    | Ok results =>
      let st1 :=
        if Py.ltb (inject_Z (Z.of_nat (size results)))
                  (inject_Z (Z.of_nat (length symbols_to_fetch)) / 2)
           && String.eqb provider_name "Finnhub"
        then set_cooldown provider_name st else st in
      let '(all_results', remaining') :=
        merge_results results (all_results st, remaining_symbols st) in
      ({| all_results := all_results'; remaining_symbols := remaining';
          provider_cooldowns := provider_cooldowns st1; reads := reads st1 |}, made)
    | Raise msg =>
      if Py.contains "429" msg || Py.contains "rate limit" (Py.lower msg)
      then (set_cooldown provider_name st, made) else (st, made)
    end.

(** One iteration of the provider loop past the [break] test. *)
Definition visit (provider_name : string) (provider : DataProvider) (st : state)
    : state * option call :=
  let continue_with st :=
    if negb (is_available provider) then (st, None)
    else attempt provider_name provider st in
  match provider_cooldowns st !! provider_name with
  | Some cooldown_until =>
    if Py.ltb (clock (reads st)) cooldown_until then
      (* skipped; the log line reads the clock once more *)
      ({| all_results := all_results st; remaining_symbols := remaining_symbols st;
          provider_cooldowns := provider_cooldowns st; reads := S (S (reads st)) |}, None)
    else
      continue_with
        {| all_results := all_results st; remaining_symbols := remaining_symbols st;
           provider_cooldowns := delete provider_name (provider_cooldowns st);
           reads := S (reads st) |}
  | None => continue_with st
  end.

Fixpoint chain_loop (providers : list (string * DataProvider)) (st : state)
    : state * list call :=
  match providers with
  | [] => (st, [])
  | (provider_name, provider) :: rest =>
    if decide (remaining_symbols st = ∅) then (st, [])
    else
      let '(st1, made) := visit provider_name provider st in
      let '(st2, calls) := chain_loop rest st1 in
      (st2, match made with Some c => c :: calls | None => calls end)
  end.

(** [fetch_daily_bars] on a chain whose cooldown table is [cooldowns]:
    the final state (returned dictionary, symbols not fetched, cooldown
    table left behind) and the provider calls made, in order. *)
Definition fetch_daily_bars (providers : list (string * DataProvider))
    (cooldowns : gmap string Q) (symbols : list string) : state * list call :=
  chain_loop providers
    {| all_results := ∅; remaining_symbols := list_to_set symbols;
       provider_cooldowns := cooldowns; reads := 0 |}.
End Chain.

End LibChain.

(** ** services/api/pipeline.py *)

Module Pipeline.
Import Py.
Local Open Scope Q_scope.

(** The keys of [broker.get_account()] that the pipeline indexes. *)
Record Account := { equity : Q; last_equity : Q }.

Definition account_data (a : Account) : Risk.AccountData :=
  {| Risk.equity := Some (equity a); Risk.last_equity := Some (last_equity a) |}.

(** What [broker.place_order] returns. *)
Record Receipt := { order_id : string; receipt_symbol : string }.

(** The dictionary built by [_execute_trades]. *)
Record ExecutionResults := {
  submitted : list Receipt;
  failed : list (string * string);
  total : nat
}.

(** The trade-plan dictionary; optional keys are [None] until set. *)
Record TradePlanDict := {
  date : string;
  mode : string;
  orders : list Risk.Order;
  signals : list Signals.SignalEntry;
  notes : option string;
  risk_violations : option (list string);
  risk_metrics : option Risk.RiskMetrics;
  error : option string;
  execution : option ExecutionResults
}.

(** A row of the [trade_plans] table. *)
Record TradePlan := {
  plan_mode : string;
  plan_universe : list string;
  plan_orders : list Risk.Order;
  plan_risk_metrics : option Risk.RiskMetrics;
  plan_notes : string;
  approved : bool;
  executed : bool
}.

(** The stores the pipeline writes: the Redis key [GLOBAL_KILL_SWITCH] and
    the [trade_plans] table, whose ids count from 1. *)
Record World := {
  kill_switch : option string;
  trade_plans : list TradePlan
}.

(** The collaborators of one run: each field is what the corresponding
    call returns or raises. *)
Record Env := {
  redis_error : option string;                 (* Redis unreachable *)
  breaker_account : result Account;            (* get_account in _check_circuit_breakers *)
  env_drawdown_halt : Q;                       (* DAILY_DRAWDOWN_HALT *)
  build_watchlist : result (list string);
  run_daily_ingest : result unit;
  now_iso : string;                            (* datetime.now(timezone.utc).isoformat() *)
  generate_signals : result (list Signals.SignalEntry);
  risk_manager : Risk.RiskManager;             (* RiskManager() *)
  risk_account : result Account;               (* get_account in _apply_risk_management *)
  get_positions : result (list Risk.Position);
  latest_price : string -> result (option Signals.PriceData);
  fmt_f0 : Q -> string;
  fmt_pct2 : Q -> string;
  save_error : option string;                  (* commit in _save_trade_plan *)
  place_order : nat -> Risk.Order -> result Receipt;  (* by position in the plan *)
  update_error : option string;                (* query/commit in _execute_trades *)
  process_daily_reports : result unit
}.

Record TradingPipeline := { self_mode : string; auto_execute : bool }.

(** Stateful, fallible steps: an exception leaves the writes made so far. *)
Definition M (A : Type) : Type := World -> result A * World.

Definition ret {A} (a : A) : M A := fun w => (Ok a, w).
Definition bindM {A B} (m : M A) (k : A -> M B) : M B :=
  fun w => match m w with
           | (Ok a, w') => k a w'
           | (Raise e, w') => (Raise e, w')
           end.
Definition lift {A} (r : result A) : M A := fun w => (r, w).

Definition redis_get (env : Env) : M (option string) :=
  fun w => match redis_error env with
           | Some e => (Raise e, w)
           | None => (Ok (kill_switch w), w)
           end.

Definition redis_set (env : Env) (value : string) : M unit :=
  fun w => match redis_error env with
           | Some e => (Raise e, w)
           | None => (Ok tt, {| kill_switch := Some value; trade_plans := trade_plans w |})
           end.

Definition _check_circuit_breakers (env : Env) : M bool :=
  bindM (redis_get env) (fun ks =>
  if match ks with Some v => String.eqb v "true" | None => false end then ret false
  else
    bindM (lift (breaker_account env)) (fun account =>
    if Py.ltb 0 (last_equity account) then
      let daily_return := (equity account - last_equity account) / last_equity account in
      if Py.ltb daily_return (- env_drawdown_halt env) then
        bindM (redis_set env "true") (fun _ => ret false)
      else ret true
    else ret true)).

(** The dictionaries returned by [_ingest_news] and [_fetch_market_data]. *)
Record NewsData := {
  news_status : string; news_error : option string;
  watchlist_size : nat; news_symbols : list string
}.
Record MarketData := {
  timestamp : string; market_status : string; market_error : option string
}.

Definition _ingest_news (env : Env) : NewsData :=
  match build_watchlist env with
  | Ok watchlist =>
    {| news_status := "completed"; news_error := None;
       watchlist_size := length watchlist; news_symbols := watchlist |}
  | Raise e =>
    {| news_status := "failed"; news_error := Some e;
       watchlist_size := 0; news_symbols := [] |}
  end.

Definition _fetch_market_data (env : Env) : MarketData :=
  match run_daily_ingest env with
  | Ok _ => {| timestamp := now_iso env; market_status := "completed"; market_error := None |}
  | Raise e => {| timestamp := now_iso env; market_status := "failed"; market_error := Some e |}
  end.

Definition _generate_signals (env : Env) (market_data : MarketData) (news_data : NewsData)
    : list Signals.SignalEntry :=
  match generate_signals env with
  | Ok sigs => sigs
  | Raise _ => []
  end.

Definition _create_trade_plan (self : TradingPipeline) (env : Env)
    (sigs : list Signals.SignalEntry) : TradePlanDict :=
  let new_orders :=
    flat_map (fun signal =>
      if String.eqb (Signals.action signal) "buy" && Py.ltb 0.6 (Signals.score signal)
      then [ {| Risk.symbol := Signals.symbol signal; Risk.side := "buy"; Risk.qty := 10;
                Risk.order_type := Some "market"%string; Risk.price := None;
                Risk.stop_loss := None; Risk.take_profit := None;
                Risk.confidence := Some (Signals.score signal) |} ]
      else []) sigs in
  {| date := now_iso env; mode := self_mode self; orders := new_orders; signals := sigs;
     notes := None; risk_violations := None; risk_metrics := None; error := None;
     execution := None |}.

(** The body of the [try] of [_apply_risk_management].  The only key
    written before a statement that can raise is [orders], which the
    handler overwrites, so the handler may start from the plan it was
    given. *)
Definition risk_management_body (env : Env) (trade_plan : TradePlanDict)
    : result TradePlanDict :=
  let risk_mgr := risk_manager env in
  do! account <- risk_account env ;
  do! positions <- get_positions env ;
  let '(breaker_ok, breaker_msg) :=
    Risk.check_circuit_breakers (fmt_pct2 env) risk_mgr (account_data account) in
  if negb breaker_ok then
    Ok {| date := date trade_plan; mode := mode trade_plan; orders := [];
          signals := signals trade_plan; notes := Some breaker_msg;
          risk_violations := risk_violations trade_plan;
          risk_metrics := risk_metrics trade_plan; error := error trade_plan;
          execution := execution trade_plan |}
  else
    do! proposed <-
      (match signals trade_plan with
       | [] => Ok (orders trade_plan)
       | _ => Risk.optimize_portfolio (latest_price env) risk_mgr (signals trade_plan)
                (account_data account)
       end) ;
    do! checked <-
      Risk.check_exposure_limits (fmt_f0 env) risk_mgr proposed positions (equity account) ;
    let '(approved_orders, violations) := checked in
    Ok {| date := date trade_plan; mode := mode trade_plan; orders := approved_orders;
          signals := signals trade_plan; notes := notes trade_plan;
          risk_violations := match violations with
                             | [] => risk_violations trade_plan
                             | _ => Some violations
                             end;
          risk_metrics := Some (Risk.calculate_risk_metrics risk_mgr approved_orders
                                  positions (equity account));
          error := error trade_plan; execution := execution trade_plan |}.

Definition _apply_risk_management (env : Env) (trade_plan : TradePlanDict) : TradePlanDict :=
  match risk_management_body env trade_plan with
  | Ok plan => plan
  | Raise e =>
    {| date := date trade_plan; mode := mode trade_plan; orders := [];
       signals := signals trade_plan; notes := notes trade_plan;
       risk_violations := risk_violations trade_plan;
       risk_metrics := risk_metrics trade_plan; error := Some e;
       execution := execution trade_plan |}
  end.

(** The row built by [_save_trade_plan]. *)
Definition db_plan_of (self : TradingPipeline) (trade_plan : TradePlanDict) : TradePlan :=
  {| plan_mode := self_mode self;
     plan_universe := map Risk.symbol (orders trade_plan);
     plan_orders := orders trade_plan;
     plan_risk_metrics := risk_metrics trade_plan;
     plan_notes := "Generated " +:+ Py.str_nat (length (orders trade_plan)) +:+ " orders";
     approved := false;
     executed := false |}.

Definition _save_trade_plan (self : TradingPipeline) (env : Env) (trade_plan : TradePlanDict)
    : M nat :=
  fun w => match save_error env with
           | Some e => (Raise e, w)
           | None =>
             (Ok (S (length (trade_plans w))),
              {| kill_switch := kill_switch w;
                 trade_plans := trade_plans w ++ [db_plan_of self trade_plan] |})
           end.

(** The submission loop of [_execute_trades]; [i] is the position of the
    next order in the plan. *)
Fixpoint submit_loop (env : Env) (i : nat) (os : list Risk.Order)
    (sub : list Receipt) (fl : list (string * string))
    : list Receipt * list (string * string) :=
  match os with
  | [] => (sub, fl)
  | order :: rest =>
    match place_order env i order with
    | Ok receipt => submit_loop env (S i) rest (sub ++ [receipt]) fl
    | Raise e => submit_loop env (S i) rest sub (fl ++ [(Risk.symbol order, e)])
    end
  end.

Definition set_executed (p : TradePlan) (b : bool) : TradePlan :=
  {| plan_mode := plan_mode p; plan_universe := plan_universe p;
     plan_orders := plan_orders p; plan_risk_metrics := plan_risk_metrics p;
     plan_notes := plan_notes p; approved := approved p; executed := b |}.

Definition _execute_trades (env : Env) (trade_plan : TradePlanDict) (plan_id : nat)
    : M ExecutionResults :=
  fun w =>
    let '(sub, fl) := submit_loop env 0 (orders trade_plan) [] [] in
    let results := {| submitted := sub; failed := fl;
                      total := length (orders trade_plan) |} in
    match update_error env with
    | Some e => (Raise e, w)
    | None =>
      match trade_plans w !! (plan_id - 1)%nat with
      | Some plan =>
        (Ok results,
         {| kill_switch := kill_switch w;
            trade_plans := <[(plan_id - 1)%nat :=
                              set_executed plan (0 <? length sub)%nat]> (trade_plans w) |})
      | None => (Ok results, w)
      end
    end.

(** Reports are attempted and their failure is swallowed. *)
Definition _generate_reports (env : Env) (trade_plan : TradePlanDict) : unit :=
  match process_daily_reports env with
  | Ok _ => tt
  | Raise _ => tt
  end.

(** The dictionary returned by [run]. *)
Inductive RunResult :=
| Halted (reason : string)
| Completed (plan_id : nat) (the_mode : string) (n_orders : nat) (was_executed : bool)
| Errored (err : string).

Definition status (r : RunResult) : string :=
  match r with
  | Halted _ => "halted"
  | Completed _ _ _ _ => "completed"
  | Errored _ => "error"
  end.

(** The body of the [try] of [run]. *)
Definition run_body (self : TradingPipeline) (env : Env) (force dry_run : bool)
    : M RunResult :=
  bindM (_check_circuit_breakers env) (fun ok =>
  if negb ok then ret (Halted "Circuit breaker triggered")
  else
    let news_data := _ingest_news env in
    let market_data := _fetch_market_data env in
    let sigs := _generate_signals env market_data news_data in
    let trade_plan := _create_trade_plan self env sigs in
    let trade_plan := _apply_risk_management env trade_plan in
    bindM (_save_trade_plan self env trade_plan) (fun plan_id =>
    bindM (if auto_execute self && negb dry_run
           then bindM (_execute_trades env trade_plan plan_id) (fun results =>
                  ret {| date := date trade_plan; mode := mode trade_plan;
                         orders := orders trade_plan; signals := signals trade_plan;
                         notes := notes trade_plan;
                         risk_violations := risk_violations trade_plan;
                         risk_metrics := risk_metrics trade_plan;
                         error := error trade_plan; execution := Some results |})
           else ret trade_plan) (fun trade_plan =>
    let _ := _generate_reports env trade_plan in
    ret (Completed plan_id (self_mode self) (length (orders trade_plan))
           (auto_execute self && negb dry_run))))).

(** [run]: the handler turns any exception of the body into a result. *)
Definition run (self : TradingPipeline) (env : Env) (force dry_run : bool)
    (w : World) : RunResult * World :=
  match run_body self env force dry_run w with
  | (Ok r, w') => (r, w')
  | (Raise e, w') => (Errored e, w')
  end.

(** Concrete collaborators to evaluate with: a flat account and one strong
    buy signal, around three choices for the risk-stage account, the price
    on file and the broker's answer to an order. *)
Definition strong_buy : Signals.SignalEntry :=
  {| Signals.symbol := "AAPL"; Signals.score := 0.9; Signals.entry_factors := [];
     Signals.rationale := "AAPL: neutral signals"; Signals.action := "buy" |}.

Definition flat_account : Account := {| equity := 100000; last_equity := 100000 |}.

Definition env_with (racct : result Account)
    (lp : string -> result (option Signals.PriceData))
    (po : nat -> Risk.Order -> result Receipt) : Env := {|
  redis_error := None;
  breaker_account := Ok flat_account;
  env_drawdown_halt := 0.02;
  build_watchlist := Ok [];
  run_daily_ingest := Ok tt;
  now_iso := "2024-01-02T00:00:00+00:00";
  generate_signals := Ok [strong_buy];
  risk_manager := Risk.default_manager;
  risk_account := racct;
  get_positions := Ok [];
  latest_price := lp;
  fmt_f0 := Risk.fmt_any;
  fmt_pct2 := Risk.fmt_any;
  save_error := None;
  place_order := po;
  update_error := None;
  process_daily_reports := Ok tt
|}.

Definition accept (i : nat) (o : Risk.Order) : result Receipt :=
  Ok {| order_id := "1"; receipt_symbol := Risk.symbol o |}.
Definition reject (i : nat) (o : Risk.Order) : result Receipt :=
  Raise "insufficient buying power".
Definition close_at_100 : Signals.PriceData :=
  {| Signals.date := 0; Signals.open := 100; Signals.high := 100; Signals.low := 100;
     Signals.close := 100; Signals.volume := 1000 |}.

(** No price on file: the risk stage sizes nothing. *)
Definition calm_env : Env := env_with (Ok flat_account) (fun _ => Ok None) accept.

(** The broker fails when the risk stage asks for the account. *)
Definition risk_down_env : Env := env_with (Raise "broker down") (fun _ => Ok None) accept.

(** A price on file, and a broker that refuses every order. *)
Definition rejecting_env : Env :=
  env_with (Ok flat_account) (fun _ => Ok (Some close_at_100)) reject.

(** The order the risk stage sizes for [strong_buy] at a close of 100. *)
Definition sized_order : Risk.Order :=
  {| Risk.symbol := "AAPL"; Risk.side := "buy"; Risk.qty := 18;
     Risk.order_type := Some "market"%string; Risk.price := Some 100;
     Risk.stop_loss := Some (Risk.calculate_stop_loss Risk.default_manager 100 "buy");
     Risk.take_profit := Some (Risk.calculate_take_profit Risk.default_manager 100 "buy");
     Risk.confidence := Some 0.9 |}.

Definition paper_pipeline : TradingPipeline := {| self_mode := "paper"; auto_execute := true |}.
Definition fresh_world : World := {| kill_switch := None; trade_plans := [] |}.

(** The plan with its [orders] key set to [os]. *)
Definition with_orders (plan : TradePlanDict) (os : list Risk.Order) : TradePlanDict :=
  {| date := date plan; mode := mode plan; orders := os; signals := signals plan;
     notes := notes plan; risk_violations := risk_violations plan;
     risk_metrics := risk_metrics plan; error := error plan; execution := execution plan |}.

(** The same collaborators, except for the watchlist builder, the market
    data ingest and the reporter. *)
Definition with_side_stages (env : Env) (bw : result (list string)) (rdi : result unit)
    (pdr : result unit) : Env := {|
  redis_error := redis_error env;
  breaker_account := breaker_account env;
  env_drawdown_halt := env_drawdown_halt env;
  build_watchlist := bw;
  run_daily_ingest := rdi;
  now_iso := now_iso env;
  generate_signals := generate_signals env;
  risk_manager := risk_manager env;
  risk_account := risk_account env;
  get_positions := get_positions env;
  latest_price := latest_price env;
  fmt_f0 := fmt_f0 env;
  fmt_pct2 := fmt_pct2 env;
  save_error := save_error env;
  place_order := place_order env;
  update_error := update_error env;
  process_daily_reports := pdr
|}.

(** The same collaborators, with another account at the breaker check. *)
Definition with_breaker_account (env : Env) (a : Account) : Env := {|
  redis_error := redis_error env;
  breaker_account := Ok a;
  env_drawdown_halt := env_drawdown_halt env;
  build_watchlist := build_watchlist env;
  run_daily_ingest := run_daily_ingest env;
  now_iso := now_iso env;
  generate_signals := generate_signals env;
  risk_manager := risk_manager env;
  risk_account := risk_account env;
  get_positions := get_positions env;
  latest_price := latest_price env;
  fmt_f0 := fmt_f0 env;
  fmt_pct2 := fmt_pct2 env;
  save_error := save_error env;
  place_order := place_order env;
  update_error := update_error env;
  process_daily_reports := process_daily_reports env
|}.

(** The same collaborators, with another answer of the signal generator. *)
Definition with_signals (env : Env) (sigs : result (list Signals.SignalEntry)) : Env := {|
  redis_error := redis_error env;
  breaker_account := breaker_account env;
  env_drawdown_halt := env_drawdown_halt env;
  build_watchlist := build_watchlist env;
  run_daily_ingest := run_daily_ingest env;
  now_iso := now_iso env;
  generate_signals := sigs;
  risk_manager := risk_manager env;
  risk_account := risk_account env;
  get_positions := get_positions env;
  latest_price := latest_price env;
  fmt_f0 := fmt_f0 env;
  fmt_pct2 := fmt_pct2 env;
  save_error := save_error env;
  place_order := place_order env;
  update_error := update_error env;
  process_daily_reports := process_daily_reports env
|}.

(** What [_save_trade_plan] and [_execute_trades] leave of a new row. *)
Definition fresh_row (self : TradingPipeline) (row : TradePlan) : Prop :=
  approved row = false /\ plan_mode row = self_mode self
  /\ plan_universe row = map Risk.symbol (plan_orders row).

End Pipeline.

(** ** services/broker/alpaca_broker.py *)

Module Broker.
Import Py.
Local Open Scope Q_scope.

(** The environment variables the constructor reads; [None] when unset. *)
Record Environ := {
  TRADING_MODE : option string;
  LIVE_TRADING_ENABLED : option string;
  LIVE_CONFIRM_PHRASE : option string;
  ALPACA_KEY_ID : option string;
  ALPACA_SECRET_KEY : option string
}.

Definition _determine_mode (env : Environ) : string :=
  let the_mode := default "paper"%string (TRADING_MODE env) in
  if String.eqb the_mode "live" then
    let live_enabled := String.eqb (default "false"%string (LIVE_TRADING_ENABLED env)) "true" in
    let live_phrase := default ""%string (LIVE_CONFIRM_PHRASE env) in
    if negb (live_enabled && String.eqb live_phrase "I_UNDERSTAND_THE_RISKS")
    then "paper"%string else the_mode
  else the_mode.

(** Truth value of an optional string: unset and empty are false. *)
Definition truthy (v : option string) : bool :=
  match v with
  | Some (String _ _) => true
  | _ => false
  end.

(** [_get_client]: the [paper] flag handed to the trading client. *)
Definition _get_client (env : Environ) (self_mode : string) : result bool :=
  if negb (truthy (ALPACA_KEY_ID env)) || negb (truthy (ALPACA_SECRET_KEY env))
  then Raise "Alpaca credentials not configured"
  else if String.eqb self_mode "live" then Ok false else Ok true.

(** [AlpacaBroker()]: the mode and the [paper] flag of its client. *)
Definition new_broker (env : Environ) : result (string * bool) :=
  let the_mode := _determine_mode env in
  do! paper <- _get_client env the_mode ;
  Ok (the_mode, paper).

Inductive OrderSide := BUY | SELL.

(** The three request classes, with the resolved time in force. *)
Inductive OrderRequest :=
| MarketOrderRequest (symbol : string) (qty : Z) (side : OrderSide) (tif : string)
| LimitOrderRequest (symbol : string) (qty : Z) (side : OrderSide) (tif : string)
    (limit_price : Q)
| StopOrderRequest (symbol : string) (qty : Z) (side : OrderSide) (tif : string)
    (stop_price : Q).

(** [not price]: unset or zero. *)
Definition missing (price : option Q) : bool :=
  match price with
  | Some x => Qeq_bool x 0
  | None => true
  end.

(** The order the trading client returns. *)
Record BrokerOrder := { id : string; order_status : string; submitted_at : option string }.

(** The dictionary returned by [place_order]. *)
Record Receipt := {
  r_order_id : string; r_symbol : string; r_side : string; r_qty : Z;
  r_order_type : string; r_status : string; r_submitted_at : option string
}.

Section PlaceOrder.
(** [getattr(TimeInForce, time_in_force.upper(), TimeInForce.DAY)]. *)
Variable time_in_force_of : string -> string.
(** The Redis read of [GLOBAL_KILL_SWITCH], the trading client's
    [submit_order], and the database insert of the order row. *)
Variable kill_switch : result (option string).
Variable submit_order : OrderRequest -> result BrokerOrder.
Variable save_order : BrokerOrder -> result unit.

(** The request that [place_order] prepares, or the [ValueError]. *)
Definition prepare (symbol side : string) (qty : Z) (order_type : string)
    (limit_price stop_price : option Q) (time_in_force : string) : result OrderRequest :=
  let order_side := if String.eqb (Py.lower side) "buy" then BUY else SELL in
  let tif := time_in_force_of time_in_force in
  if String.eqb (Py.lower order_type) "market" then
    Ok (MarketOrderRequest symbol qty order_side tif)
  else if String.eqb (Py.lower order_type) "limit" then
    if missing limit_price then Raise "Limit price required for limit orders"
    else Ok (LimitOrderRequest symbol qty order_side tif (default 0 limit_price))
  else if String.eqb (Py.lower order_type) "stop" then
    if missing stop_price then Raise "Stop price required for stop orders"
    else Ok (StopOrderRequest symbol qty order_side tif (default 0 stop_price))
  else Raise ("Unsupported order type: " +:+ order_type).

Definition place_order (symbol side : string) (qty : Z) (order_type : string)
    (limit_price stop_price : option Q) (time_in_force : string) : result Receipt :=
  do! ks <- kill_switch ;
  if match ks with Some v => String.eqb v "true" | None => false end then
    Raise "Trading is paused (GLOBAL_KILL_SWITCH is active)"
  else
    do! request <- prepare symbol side qty order_type limit_price stop_price time_in_force ;
    do! order <- submit_order request ;
    do! saved <- save_order order ;
    Ok {| r_order_id := id order; r_symbol := symbol; r_side := side; r_qty := qty;
          r_order_type := order_type; r_status := order_status order;
          r_submitted_at := submitted_at order |}.

(** The call made by [_execute_trades] for an order of the plan: no limit
    price, no stop price, the default time in force. *)
Definition place_plan_order (order : Risk.Order) : result Receipt :=
  place_order (Risk.symbol order) (Risk.side order) (Risk.qty order)
    (default "market"%string (Risk.order_type order)) None None "day".
End PlaceOrder.

(** A trading client that accepts every request. *)
Definition accepting (request : OrderRequest) : result BrokerOrder :=
  Ok {| id := "1"; order_status := "accepted"; submitted_at := None |}.

End Broker.

(** * Properties *)

(** ** Facts about the Python primitives *)

Module PyFacts.
Local Open Scope Q_scope.

Lemma ltb_lt (x y : Q) : Py.ltb x y = true <-> x < y.
Proof.
  unfold Py.ltb. rewrite negb_true_iff.
  destruct (Qle_bool y x) eqn:E.
  - apply Qle_bool_iff in E. split; [discriminate | intros H; exfalso; lra].
  - split; [intros _ | reflexivity].
    destruct (Qlt_le_dec x y) as [H|H]; [exact H |].
    apply Qle_bool_iff in H. congruence.
Qed.

Lemma ltb_ge (x y : Q) : Py.ltb x y = false <-> y <= x.
Proof.
  unfold Py.ltb. rewrite negb_false_iff. apply Qle_bool_iff.
Qed.

Lemma div_ok (a b : Q) : ~ b == 0 -> Py.div a b = Py.Ok (a / b).
Proof.
  intros H. unfold Py.div. destruct (Qeq_bool b 0) eqn:E; [|reflexivity].
  apply Qeq_bool_iff in E. contradiction.
Qed.

(** On non-negative numbers [int()] is the floor. *)
Lemma int_floor (x : Q) : 0 <= x -> Py.int x = Qfloor x.
Proof.
  destruct x as [n d]. unfold Qle, Py.int, Qfloor. simpl. intros H.
  apply Z.quot_div_nonneg; lia.
Qed.

End PyFacts.

(** ** services/risk/risk.py *)

Module RiskSpec.
Import Py Risk PyFacts.
Local Open Scope Q_scope.

Section ExposureLoop.
Variables (fmt_f0 : Q -> string) (self : RiskManager).
Variables (account_equity current_gross current_long current_short : Q).
Hypothesis equity_nonzero : ~ account_equity == 0.

(** The loop never changes the totals it compares against, so it is a
    filter: the approved list grows by exactly the orders that pass the
    three tests against the initial totals. *)
Lemma exposure_loop_is_filter (proposed approved : list Order) (violations : list string) :
  exists violations',
    exposure_loop fmt_f0 self account_equity current_gross current_long current_short
      proposed approved violations
    = Ok (approved ++ List.filter
            (order_passes_totals self account_equity current_gross current_long current_short)
            proposed, violations').
Proof.
  revert approved violations.
  induction proposed as [|order rest IH]; intros approved violations.
  - exists violations. simpl. by rewrite app_nil_r.
  - cbn [exposure_loop List.filter]. unfold order_passes_totals at 1.
    destruct (Py.ltb (account_equity * max_position_size self) (order_value_of order));
      cbn [negb andb]; [apply IH|].
    destruct (Py.ltb (account_equity * max_gross_exposure self)
                (current_gross + Qabs (order_value_of order)));
      cbn [negb andb]; [apply IH|].
    destruct (String.eqb (side order) "buy");
      rewrite div_ok by exact equity_nonzero;
      (match goal with |- context [Py.ltb ?a ?b] => destruct (Py.ltb a b) end);
      cbn [negb andb]; try apply IH;
      (destruct (IH (approved ++ [order]) violations) as [v Hv];
       exists v; rewrite Hv; by rewrite <- app_assoc).
Qed.
End ExposureLoop.

Lemma totals_of_empty_book :
  current_gross_of [] = 0 /\ current_long_of [] = 0 /\ current_short_of [] = 0.
Proof. repeat split. Qed.

(** C1 (amended).  [check_exposure_limits] compares every order with the
    gross and net totals of the current positions only; the totals are
    never updated after an approval.  For a non-zero equity the approved
    list is therefore exactly the sub-list of proposed orders that pass the
    three tests on their own, and two buy orders that are each within the
    limits against an empty book are both approved, whatever their sum. *)
Theorem check_exposure_limits_judges_each_order_alone
    (fmt_f0 : Q -> string) (self : RiskManager) (positions : list Position)
    (account_equity : Q) :
  ~ account_equity == 0 ->
  (forall proposed, exists violations,
      check_exposure_limits fmt_f0 self proposed positions account_equity
      = Ok (List.filter (order_passes self positions account_equity) proposed, violations))
  /\ (forall o1 o2,
        side o1 = "buy"%string -> side o2 = "buy"%string ->
        within_limits_alone self account_equity o1 ->
        within_limits_alone self account_equity o2 ->
        check_exposure_limits fmt_f0 self [o1; o2] [] account_equity = Ok ([o1; o2], [])).
Proof.
  intros Hne. split.
  - intros proposed. unfold check_exposure_limits, order_passes.
    destruct (exposure_loop_is_filter fmt_f0 self account_equity
                (current_gross_of positions) (current_long_of positions)
                (current_short_of positions) Hne proposed [] []) as [v Hv].
    exists v. exact Hv.
  - intros o1 o2 Hb1 Hb2 (Hs1 & Hg1 & Hn1) (Hs2 & Hg2 & Hn2).
    unfold check_exposure_limits.
    destruct totals_of_empty_book as (-> & -> & ->).
    assert (Hnet : forall o, (0 - 0 + order_value_of o) / account_equity
                             == order_value_of o / account_equity).
    { intros o. field. exact Hne. }
    cbn [exposure_loop]. rewrite Hb1, Hb2. cbn [String.eqb Ascii.eqb Bool.eqb].
    rewrite !div_ok by exact Hne.
    rewrite (proj2 (ltb_ge _ _) Hs1).
    rewrite (proj2 (ltb_ge (account_equity * max_gross_exposure self)
                           (0 + Qabs (order_value_of o1))));
      [|rewrite Qplus_0_l; exact Hg1].
    rewrite (proj2 (ltb_ge (max_net_exposure self)
                           (Qabs ((0 - 0 + order_value_of o1) / account_equity))));
      [|rewrite Hnet; exact Hn1].
    rewrite (proj2 (ltb_ge _ _) Hs2).
    rewrite (proj2 (ltb_ge (account_equity * max_gross_exposure self)
                           (0 + Qabs (order_value_of o2))));
      [|rewrite Qplus_0_l; exact Hg2].
    rewrite (proj2 (ltb_ge (max_net_exposure self)
                           (Qabs ((0 - 0 + order_value_of o2) / account_equity))));
      [|rewrite Hnet; exact Hn2].
    reflexivity.
Qed.

Lemma check_exposure_limits_judges_each_order_alone_witness :
  (forall proposed, exists violations,
      check_exposure_limits fmt_any wide_manager proposed [] 1000
      = Ok (List.filter (order_passes wide_manager [] 1000) proposed, violations))
  /\ (forall o1 o2,
        side o1 = "buy"%string -> side o2 = "buy"%string ->
        within_limits_alone wide_manager 1000 o1 ->
        within_limits_alone wide_manager 1000 o2 ->
        check_exposure_limits fmt_any wide_manager [o1; o2] [] 1000 = Ok ([o1; o2], [])).
Proof.
  apply (check_exposure_limits_judges_each_order_alone fmt_any wide_manager [] 1000).
  intros H. vm_compute in H. discriminate H.
Defined.

(** C1 (as stated) fails: with an empty book, equity 1000, single-name limit
    0.5, gross limit 0.75 and net limit 0.5, two buy orders of value 400 are
    each within the single-name and gross limits, their sum 800 exceeds the
    gross budget 750, and the second order is approved, not rejected. *)
Lemma second_order_over_gross_budget_is_approved :
  let o1 := buy_order "AAA" 4 100 in
  let o2 := buy_order "BBB" 4 100 in
  within_limits_alone wide_manager 1000 o1
  /\ within_limits_alone wide_manager 1000 o2
  /\ 1000 * max_gross_exposure wide_manager < order_value_of o1 + order_value_of o2
  /\ check_exposure_limits fmt_any wide_manager [o1; o2] [] 1000 = Ok ([o1; o2], [])
  /\ check_exposure_limits fmt_any wide_manager [o1; o2] [] 1000 <> Ok ([o1], [
        "BBB: Would exceed gross exposure limit"%string]).
Proof.
  cbv zeta. repeat split; try (vm_compute; congruence).
Qed.

(** *** Position sizing *)

Section Sizing.
Variables (self : RiskManager) (sym : string).
Variables (signal_strength account_equity current_price : Q).
Hypothesis price_pos : 0 < current_price.
Hypothesis equity_nonneg : 0 <= account_equity.
Hypothesis fraction_nonneg : 0 <= max_position_size self.
Hypothesis strength_range : 0 <= signal_strength <= 1.

Let floor_shares : Z :=
  Qfloor (account_equity * max_position_size self * Py.min 1 signal_strength
          / current_price).
Let min_shares : Z := Z.max 1 (Qfloor (100 / current_price)).
Let max_shares : Z := Qfloor (50000 / current_price).

Lemma adjusted_value_nonneg :
  0 <= account_equity * max_position_size self * Py.min 1 signal_strength / current_price.
Proof.
  apply Qle_shift_div_l; [exact price_pos|]. rewrite Qmult_0_l.
  apply Qmult_le_0_compat; [apply Qmult_le_0_compat; assumption|].
  unfold Py.min. destruct (Py.ltb signal_strength 1); lra.
Qed.

(** The value computed by the code, with [int()] read as the floor. *)
Lemma calculate_position_size_eq :
  calculate_position_size self sym signal_strength account_equity current_price
  = Ok (Z.max min_shares (Z.min floor_shares max_shares)).
Proof.
  assert (Hnz : ~ current_price == 0) by lra.
  unfold calculate_position_size. rewrite !div_ok by exact Hnz.
  rewrite (int_floor _ adjusted_value_nonneg).
  rewrite (int_floor (100 / current_price)),  (int_floor (50000 / current_price)).
  - reflexivity.
  - apply Qle_shift_div_l; [exact price_pos | lra].
  - apply Qle_shift_div_l; [exact price_pos | lra].
Qed.

(** Up to a price of 50000 the bounds are ordered and the result is the
    floor clamped between them. *)
Lemma calculate_position_size_clamped :
  current_price <= 50000 ->
  exists shares,
    calculate_position_size self sym signal_strength account_equity current_price = Ok shares
    /\ (min_shares <= max_shares)%Z
    /\ (min_shares <= shares <= max_shares)%Z.
Proof.
  intros Hcap. eexists. split; [apply calculate_position_size_eq|].
  assert (H1 : (1 <= max_shares)%Z).
  { change 1%Z with (Qfloor 1). apply Qfloor_resp_le.
    apply Qle_shift_div_l; [exact price_pos | lra]. }
  assert (H2 : (Qfloor (100 / current_price) <= max_shares)%Z).
  { apply Qfloor_resp_le. apply Qle_shift_div_l; [exact price_pos|].
    unfold Qdiv. rewrite <- Qmult_assoc, (Qmult_comm (/ current_price)),
      Qmult_inv_r, Qmult_1_r by lra. lra. }
  unfold min_shares. lia.
Qed.

(** Above 50000 the upper bound is 0, the lower bound is 1, and the lower
    bound wins: the code returns one share, whose value exceeds 50000. *)
Lemma calculate_position_size_above_cap :
  50000 < current_price ->
  calculate_position_size self sym signal_strength account_equity current_price = Ok 1%Z
  /\ max_shares = 0%Z /\ min_shares = 1%Z.
Proof.
  intros Hcap. rewrite calculate_position_size_eq.
  assert (Hlt : forall a, 0 <= a -> a <= 50000 -> Qfloor (a / current_price) = 0%Z).
  { intros a Ha0 Ha.
    assert (0 <= a / current_price) by (apply Qle_shift_div_l; [exact price_pos | lra]).
    assert (a / current_price < 1) by (apply Qlt_shift_div_r; [exact price_pos | lra]).
    pose proof (Qfloor_resp_le _ _ H) as L. change (Qfloor 0) with 0%Z in L.
    pose proof (Qfloor_le (a / current_price)) as U.
    assert (inject_Z (Qfloor (a / current_price)) < inject_Z 1) as U'
      by (apply Qle_lt_trans with (a / current_price); [exact U | exact H0]).
    rewrite <- Zlt_Qlt in U'. lia. }
  assert (Hmax : max_shares = 0%Z) by (apply Hlt; lra).
  assert (Hmin : min_shares = 1%Z) by (unfold min_shares; rewrite Hlt by lra; reflexivity).
  rewrite Hmax, Hmin. repeat split. f_equal. lia.
Qed.
End Sizing.

(** C2.  At price 60000 (equity 100000, full signal strength, default
    limits) the bounds are min_shares = 1 and max_shares = 0, and
    [calculate_position_size] returns 1 share, a position of 60000 that is
    above the 50000 cap, where the sizing rule calls for 0. *)
Theorem calculate_position_size_forces_one_share_above_cap :
  calculate_position_size default_manager "BRK.A" 1 100000 60000 = Ok 1%Z
  /\ Py.int (50000 / 60000) = 0%Z
  /\ Z.max 1 (Py.int (100 / 60000)) = 1%Z
  /\ 50000 < inject_Z 1 * 60000.
Proof. repeat split. Qed.

(** The example of the sizing test: 16 shares, within the 20-share bound. *)
Example calculate_position_size_test_basic :
  calculate_position_size default_manager "TEST" 0.8 100000 100 = Ok 16%Z.
Proof. reflexivity. Qed.

(** *** Circuit breaker *)

Lemma contains_drawdown (tail : string) :
  Py.contains "drawdown" (Py.lower ("Daily drawdown limit hit: " +:+ tail)) = true.
Proof. reflexivity. Qed.

(** C6.  [check_circuit_breakers] returns ok = false exactly when
    last_equity > 0 and (equity - last_equity) / last_equity is below
    -daily_drawdown_halt; the reason then contains the word drawdown;
    equity = last_equity = 100000 passes and equity 97000 against 100000
    trips at the 0.02 threshold. *)
Theorem check_circuit_breakers_trips_iff
    (fmt_pct2 : Q -> string) (self : RiskManager) (account_data : AccountData) :
  let eq := default 0 (equity account_data) in
  let last := default eq (last_equity account_data) in
  (fst (check_circuit_breakers fmt_pct2 self account_data) = false
     <-> 0 < last /\ (eq - last) / last < - daily_drawdown_halt self)
  /\ (fst (check_circuit_breakers fmt_pct2 self account_data) = false ->
      Py.contains "drawdown"
        (Py.lower (snd (check_circuit_breakers fmt_pct2 self account_data))) = true)
  /\ fst (check_circuit_breakers fmt_pct2 default_manager
            {| equity := Some 100000; last_equity := Some 100000 |}) = true
  /\ fst (check_circuit_breakers fmt_pct2 default_manager
            {| equity := Some 97000; last_equity := Some 100000 |}) = false.
Proof.
  intros eq last. unfold check_circuit_breakers. fold eq. fold last.
  destruct (Py.ltb 0 last) eqn:E1.
  - destruct (Py.ltb ((eq - last) / last) (- daily_drawdown_halt self)) eqn:E2.
    + apply ltb_lt in E1, E2. cbn [fst snd].
      repeat split; auto using contains_drawdown.
    + cbn [fst snd]. repeat split; try discriminate.
      intros [_ H]. apply ltb_lt in H. congruence.
  - cbn [fst snd]. repeat split; try discriminate.
    intros [H _]. apply ltb_lt in H. congruence.
Qed.

End RiskSpec.

(** ** services/signals/signals.py *)

Module SignalsSpec.
Import Py Signals PyFacts.
Local Open Scope Q_scope.

(** The factor names computed by [generate_signals] against the names of
    the default configuration: only [volume_surge] is in both. *)
Lemma default_factors_lookup :
  default_factors !! "momentum"%string = None
  /\ default_factors !! "rsi"%string = None
  /\ default_factors !! "macd_histogram"%string = None
  /\ default_factors !! "volume_surge"%string = Some (on 0.15).
Proof. repeat split; vm_compute; reflexivity. Qed.

Section WithIndicators.
Variable ta_rsi : nat -> list Q -> Q.
Variables ta_macd_signal ta_macd_diff : list Q -> Q.
Variable np_exp : Q -> Q.

Abbreviation score_symbol := (score_symbol ta_rsi ta_macd_signal ta_macd_diff np_exp).
Abbreviation signals_loop := (signals_loop ta_rsi ta_macd_signal ta_macd_diff np_exp).
Abbreviation generate_signals := (generate_signals ta_rsi ta_macd_signal ta_macd_diff np_exp).







(** *** The default configuration *)

Lemma composite_default_factor_map (m r h v : Q) :
  calculate_composite_score np_exp default_config (factor_map m r h v)
  == normalize_factor np_exp "volume_surge" v.
Proof.
  destruct default_factors_lookup as (Hm & Hr & Hh & Hv).
  unfold Signals.calculate_composite_score, factor_map.
  change (default ∅ (factors default_config)) with default_factors.
  cbn [Signals.composite_loop]. rewrite Hm, Hr, Hh, Hv.
  change (default true (enabled (on 0.15))) with true.
  change (default 0 (weight (on 0.15))) with 0.15. cbv iota beta.
  replace (Py.ltb 0 (0 + 0.15)) with true by reflexivity.
  field.
Qed.

Lemma score_symbol_default sym prices entry rows :
  score_symbol default_config sym prices = Some (Ok (entry, rows)) ->
  exists m r h v,
    entry_factors entry = factor_map m r h v
    /\ score entry == normalize_factor np_exp "volume_surge" v
    /\ Forall (fun row => factor_name row <> "volume_surge"%string -> row_weight row = 0) rows.
Proof.
  unfold Signals.score_symbol.
  destruct (length prices <? 20)%nat; [discriminate|].
  cbn [default_config factors]. intros [= <- <-].
  do 4 eexists. split; [reflexivity|]. split.
  - cbn [score]. apply composite_default_factor_map.
  - destruct default_factors_lookup as (Hm & Hr & Hh & Hv).
    cbn [map]. rewrite Hm, Hr, Hh, Hv.
    repeat constructor; cbn [factor_name row_weight]; try reflexivity.
    intros H. by destruct H.
Qed.

Lemma signals_loop_default history symbols signals session
    (P : SignalEntry -> Prop) (R : SignalRow -> Prop) :
  (forall sym entry rows,
      score_symbol default_config sym (history sym) = Some (Ok (entry, rows)) ->
      P entry /\ Forall R rows) ->
  Forall P signals -> Forall R session ->
  Forall P (fst (signals_loop default_config history symbols signals session))
  /\ Forall R (snd (signals_loop default_config history symbols signals session)).
Proof.
  intros Hstep. revert signals session.
  induction symbols as [|sym rest IH]; intros signals session Hs Hr.
  - cbn. auto.
  - cbn [Signals.signals_loop].
    destruct (score_symbol default_config sym (history sym))
      as [[[entry rows]|msg]|] eqn:E; try (apply IH; assumption).
    destruct (Hstep _ _ _ E) as [He Hrows].
    apply IH; apply Forall_app; split; auto.
Qed.


End WithIndicators.


End SignalsSpec.

(** ** Provider chains *)

Module ChainSpec.
Import Py Providers.

(** A provider only ever stores frames under symbols it was asked for. *)
Lemma fetch_loop_dom stop skip respond symbols results :
  dom (fetch_loop stop skip respond symbols results)
  ⊆ dom results ∪ list_to_set symbols.
Proof.
  revert results. induction symbols as [|sym rest IH]; intros results; cbn.
  - set_solver.
  - destruct (respond sym) as [df| | |].
    + destruct (skip && empty df).
      * specialize (IH results). set_solver.
      * specialize (IH (<[sym := df]> results)). rewrite dom_insert_L in IH. set_solver.
    + specialize (IH results). set_solver.
    + destruct stop; [set_solver|]. specialize (IH results). set_solver.
    + specialize (IH results). set_solver.
Qed.

Lemma merge_results_partitions (S : gset string) results st :
  dom results ⊆ S -> partitions S st -> partitions S (merge_results results st).
Proof.
  intros Hdom. unfold merge_results.
  assert (Hin : forall sym df, (sym, df) ∈ map_to_list results -> sym ∈ S).
  { intros sym df H. apply elem_of_map_to_list in H.
    apply Hdom, elem_of_dom. eauto. }
  revert st. induction (map_to_list results) as [|[sym df] l IH]; intros st Hst.
  - exact Hst.
  - cbn [fold_left]. apply IH.
    + intros sym' df' H. apply (Hin sym' df'). by right.
    + destruct st as [all_results remaining]. destruct df as [|bar df'].
      * exact Hst.
      * cbn [empty]. destruct Hst as (Hu & Hd & Hne).
        assert (sym ∈ S) by (apply (Hin sym (bar :: df')); by left).
        unfold partitions. cbn [fst snd] in *. rewrite dom_insert_L.
        split; [|split].
        -- apply set_eq. intros x. rewrite <- Hu.
           destruct (decide (x = sym)) as [->|]; [|set_solver].
           rewrite <- Hu in H. set_solver.
        -- set_solver.
        -- intros sym' df''. rewrite lookup_insert.
           destruct (decide (sym = sym')); [by intros [= <-] | apply Hne].
Qed.

(** *** services/api/data_providers.py *)

Section ApiChainFacts.
Variable listing : gset string -> list string.
Hypothesis listing_perm : forall X, listing X ≡ₚ elements X.

Lemma listing_subset (X : gset string) : list_to_set (listing X) = X.
Proof.
  apply set_eq. intros x.
  rewrite elem_of_list_to_set, (listing_perm X). apply elem_of_elements.
Qed.

Lemma api_provider_fetch_dom p batch results :
  ApiChain.provider_fetch p batch = Ok results -> dom results ⊆ list_to_set batch.
Proof.
  unfold ApiChain.provider_fetch. destruct (negb (is_available p)); [discriminate|].
  intros [= <-]. etrans; [apply fetch_loop_dom|]. set_solver.
Qed.

Lemma api_chain_loop_partitions (S : gset string) providers all_results remaining calls :
  partitions S (all_results, remaining) ->
  partitions S (fst (ApiChain.chain_loop listing providers all_results remaining calls)).
Proof.
  revert all_results remaining calls.
  induction providers as [|[name p] rest IH]; intros all_results remaining calls Hst.
  - exact Hst.
  - cbn [ApiChain.chain_loop].
    destruct (decide (remaining = ∅)); [exact Hst|].
    destruct (negb (is_available p)); [by apply IH|].
    destruct (ApiChain.provider_fetch p (listing remaining)) as [results|msg] eqn:E;
      [|by apply IH].
    destruct (merge_results results (all_results, remaining)) as [all' rem'] eqn:M.
    apply IH. rewrite <- M. apply merge_results_partitions; [|exact Hst].
    apply api_provider_fetch_dom in E. rewrite listing_subset in E.
    destruct Hst as (Hu & _). cbn [fst snd] in Hu. set_solver.
Qed.

(** C5.  After [fetch_daily_bars], the symbols of the returned dictionary
    and the symbols left in [remaining_symbols] split the requested set:
    their union is the set of requested symbols, they are disjoint, and
    every returned frame has at least one row. *)
Theorem fetch_daily_bars_partitions_request
    (providers : list (string * DataProvider)) (symbols : list string) :
  let out := ApiChain.fetch_daily_bars listing providers symbols in
  let all_results := fst (fst out) in
  let remaining_symbols := snd (fst out) in
  dom all_results ∪ remaining_symbols = list_to_set symbols
  /\ dom all_results ∩ remaining_symbols = ∅
  /\ forall sym df, all_results !! sym = Some df -> df <> [].
Proof.
  intros out all_results remaining_symbols.
  pose proof (api_chain_loop_partitions (list_to_set symbols) providers
                ∅ (list_to_set symbols) []) as H.
  unfold partitions in H.
  replace (fst (fst (ApiChain.chain_loop listing providers ∅ (list_to_set symbols) [])))
    with all_results in H by reflexivity.
  replace (snd (fst (ApiChain.chain_loop listing providers ∅ (list_to_set symbols) [])))
    with remaining_symbols in H by reflexivity.
  apply H. cbn [fst snd]. rewrite dom_empty_L.
  split; [set_solver|]. split; [set_solver|].
  intros sym df. rewrite lookup_empty. discriminate.
Qed.
End ApiChainFacts.

Lemma fetch_daily_bars_partitions_request_witness :
  let providers := ApiChain.providers_of (silent Finnhub) (unconfigured AlphaVantage)
                     (unconfigured Polygon) (generous YFinance) in
  let out := ApiChain.fetch_daily_bars elements providers ["AAPL"; "MSFT"]%string in
  dom (fst (fst out)) ∪ snd (fst out) = list_to_set ["AAPL"; "MSFT"]%string
  /\ dom (fst (fst out)) ∩ snd (fst out) = ∅
  /\ forall sym df, fst (fst out) !! sym = Some df -> df <> [].
Proof.
  apply (fetch_daily_bars_partitions_request elements).
  intros X. reflexivity.
Defined.

(** In that run Finnhub has nothing, Yahoo Finance serves both symbols,
    and nothing remains. *)
Example fallback_to_yahoo :
  let providers := ApiChain.providers_of (silent Finnhub) (unconfigured AlphaVantage)
                     (unconfigured Polygon) (generous YFinance) in
  let out := ApiChain.fetch_daily_bars elements providers ["AAPL"; "MSFT"]%string in
  map call_name (snd out) = ["Finnhub"; "Yahoo Finance"]%string
  /\ snd (fst out) = ∅
  /\ fst (fst out) !! "AAPL"%string = Some [one_bar].
Proof. repeat split; vm_compute; reflexivity. Qed.

(** *** libs/data_providers.py *)

Section LibChainFacts.
Import LibChain.
Local Open Scope Q_scope.
Variable listing : gset string -> list string.
Variable clock : nat -> Q.

Abbreviation attempt := (LibChain.attempt listing clock).
Abbreviation visit := (LibChain.visit listing clock).
Abbreviation chain_loop := (LibChain.chain_loop listing clock).






Lemma chain_loop_cons name p rest st :
  chain_loop ((name, p) :: rest) st
  = if decide (remaining_symbols st = ∅) then (st, [])
    else (fst (chain_loop rest (fst (visit name p st))),
          match snd (visit name p st) with
          | Some c => c :: snd (chain_loop rest (fst (visit name p st)))
          | None => snd (chain_loop rest (fst (visit name p st)))
          end).
Proof.
  cbn [LibChain.chain_loop]. destruct (decide (remaining_symbols st = ∅)); [reflexivity|].
  destruct (visit name p st) as [st1 made]. cbn [fst snd].
  destruct (chain_loop rest st1) as [st2 calls]. reflexivity.
Qed.






(** The chain with cooldowns splits the request in the same way. *)
Section Partition.
Hypothesis listing_perm : forall X, listing X ≡ₚ elements X.

Lemma lib_provider_fetch_dom p batch results :
  provider_fetch p batch = Ok results -> dom results ⊆ list_to_set batch.
Proof.
  unfold provider_fetch. destruct (negb (is_available p)); [discriminate|].
  intros [= <-]. etrans; [apply fetch_loop_dom|].
  destruct (provider_kind p); try set_solver.
  intros x. rewrite dom_empty_L, !elem_of_union, !elem_of_list_to_set.
  intros [H|H]; [set_solver|]. by apply (subseteq_take 5 batch).
Qed.

Lemma attempt_partitions S name p st :
  partitions S (locals st) -> partitions S (locals (fst (attempt name p st))).
Proof.
  intros Hst. unfold LibChain.attempt.
  destruct (String.eqb name "Alpha Vantage" && (10 <? size (remaining_symbols st))%nat);
    [exact Hst|].
  set (batch := if String.eqb name "Alpha Vantage" then _ else _).
  assert (Hb : list_to_set batch ⊆ remaining_symbols st).
  { intros x Hx. apply elem_of_list_to_set in Hx.
    rewrite <- (listing_subset listing listing_perm (remaining_symbols st)).
    apply elem_of_list_to_set. revert Hx. unfold batch.
    destruct (String.eqb name "Alpha Vantage"); [apply subseteq_take|].
    destruct (String.eqb name "Polygon"); [apply subseteq_take | done]. }
  destruct (provider_fetch p batch) as [results|msg] eqn:F.
  - destruct (merge_results results _) as [a r] eqn:M.
    change (partitions S (a, r)). rewrite <- M.
    apply merge_results_partitions; [|exact Hst].
    apply lib_provider_fetch_dom in F. destruct Hst as (Hu & _).
    cbn [fst snd locals] in Hu. set_solver.
  - destruct (Py.contains "429" msg || Py.contains "rate limit" (Py.lower msg));
      exact Hst.
Qed.

Lemma visit_partitions S name p st :
  partitions S (locals st) -> partitions S (locals (fst (visit name p st))).
Proof.
  intros Hst. unfold LibChain.visit.
  destruct (provider_cooldowns st !! name) as [u|].
  - destruct (Py.ltb (clock (reads st)) u); [exact Hst|].
    destruct (negb (is_available p)); [exact Hst|]. by apply attempt_partitions.
  - destruct (negb (is_available p)); [exact Hst|]. by apply attempt_partitions.
Qed.

Lemma lib_fetch_daily_bars_partitions providers cooldowns symbols :
  partitions (list_to_set symbols)
    (locals (fst (LibChain.fetch_daily_bars listing clock providers cooldowns symbols))).
Proof.
  unfold LibChain.fetch_daily_bars.
  set (st0 := {| all_results := ∅ |}).
  assert (H0 : partitions (list_to_set symbols) (locals st0)).
  { unfold partitions. cbn [fst snd locals st0 all_results remaining_symbols].
    rewrite dom_empty_L. split; [set_solver|]. split; [set_solver|].
    intros sym df. rewrite lookup_empty. discriminate. }
  revert H0. generalize st0. clear st0.
  induction providers as [|[name p] rest IH]; intros st Hst; [exact Hst|].
  rewrite chain_loop_cons. destruct (decide (remaining_symbols st = ∅)); [exact Hst|].
  cbn [fst]. apply IH. by apply visit_partitions.
Qed.
End Partition.

End LibChainFacts.

Local Open Scope Q_scope.



(** In that run both providers are called, Finnhub answers with none of
    the two symbols, and the cooldown table ends with Finnhub alone. *)
Example silent_finnhub_run :
  let providers := LibChain.providers_of (silent YFinance) (silent Finnhub) in
  let run1 := LibChain.fetch_daily_bars elements (fun _ => 0) providers ∅
                ["AAPL"; "MSFT"]%string in
  map call_name (snd run1) = ["Yahoo Finance"; "Finnhub"]%string
  /\ LibChain.provider_cooldowns (fst run1) = {[ "Finnhub"%string := 0 + 60 ]}.
Proof. split; vm_compute; reflexivity. Qed.


End ChainSpec.

(** ** services/api/pipeline.py *)

Module PipelineSpec.
Import Py Pipeline.

(** *** The risk-filter stage *)

Lemma apply_risk_management_on_error env plan e :
  risk_management_body env plan = Raise e ->
  orders (_apply_risk_management env plan) = []
  /\ error (_apply_risk_management env plan) = Some e
  /\ notes (_apply_risk_management env plan) = notes plan.
Proof. intros H. unfold _apply_risk_management. rewrite H. repeat split. Qed.

(** C7 (amended).  When the body of the risk-filter stage raises, the
    plan handed on has an empty order list and carries the message under
    its [error] key, its [notes] being untouched; the row then persisted
    has no orders, and its notes are the fixed text for zero orders. *)
Theorem risk_failure_clears_orders
    (self : TradingPipeline) (env : Env) (plan : TradePlanDict) (e : string) (w : World) :
  risk_management_body env plan = Raise e ->
  save_error env = None ->
  let plan' := _apply_risk_management env plan in
  orders plan' = []
  /\ error plan' = Some e
  /\ notes plan' = notes plan
  /\ exists row,
       _save_trade_plan self env plan' w
       = (Ok (S (length (trade_plans w))),
          {| kill_switch := kill_switch w; trade_plans := trade_plans w ++ [row] |})
       /\ plan_orders row = []
       /\ plan_notes row = "Generated 0 orders"%string.
Proof.
  intros Hraise Hsave plan'.
  destruct (apply_risk_management_on_error env plan e Hraise) as (Ho & He & Hn).
  fold plan' in Ho, He, Hn. repeat split; try assumption.
  exists (db_plan_of self plan'). unfold _save_trade_plan. rewrite Hsave.
  split; [reflexivity|]. unfold db_plan_of. cbn [plan_orders plan_notes].
  rewrite Ho. split; reflexivity.
Qed.

Lemma risk_failure_clears_orders_witness :
  let plan := _create_trade_plan paper_pipeline risk_down_env [strong_buy] in
  let plan' := _apply_risk_management risk_down_env plan in
  orders plan' = []
  /\ error plan' = Some "broker down"%string
  /\ notes plan' = notes plan
  /\ exists row,
       _save_trade_plan paper_pipeline risk_down_env plan' fresh_world
       = (Ok (S (length (trade_plans fresh_world))),
          {| kill_switch := kill_switch fresh_world;
             trade_plans := trade_plans fresh_world ++ [row] |})
       /\ plan_orders row = []
       /\ plan_notes row = "Generated 0 orders"%string.
Proof.
  apply (risk_failure_clears_orders paper_pipeline risk_down_env
           (_create_trade_plan paper_pipeline risk_down_env [strong_buy])
           "broker down" fresh_world); reflexivity.
Defined.

(** C7 (as stated) fails on the notes: with the broker failing in the
    risk stage, the drafted plan of one order is cleared and persisted with
    no orders, but the persisted notes are the fixed text and do not
    mention the error, which stays under the plan's [error] key. *)
Lemma risk_error_not_in_persisted_notes :
  let draft := _create_trade_plan paper_pipeline risk_down_env [strong_buy] in
  risk_management_body risk_down_env draft = Raise "broker down"
  /\ length (orders draft) = 1%nat
  /\ error (_apply_risk_management risk_down_env draft) = Some "broker down"%string
  /\ notes (_apply_risk_management risk_down_env draft) = None
  /\ exists row,
       run paper_pipeline risk_down_env false true fresh_world
       = (Completed 1 "paper" 0 false, {| kill_switch := None; trade_plans := [row] |})
       /\ plan_orders row = []
       /\ plan_notes row = "Generated 0 orders"%string
       /\ Py.contains "broker down" (plan_notes row) = false.
Proof.
  cbv zeta. repeat split.
  eexists. repeat split.
Qed.

(** *** The entry point *)

(** C8.  [run] returns a result whose status is one of completed, halted
    and error, whatever the flags and whatever the collaborators do; an
    exception that escapes the body gives the error result carrying its
    message, and a body that returns gives that result, never the error
    one. *)
Theorem run_always_returns_a_status
    (self : TradingPipeline) (env : Env) (force dry_run : bool) (w : World) :
  In (status (fst (run self env force dry_run w))) ["completed"; "halted"; "error"]%string
  /\ (forall e w', run_body self env force dry_run w = (Raise e, w') ->
        run self env force dry_run w = (Errored e, w'))
  /\ (forall r w', run_body self env force dry_run w = (Ok r, w') ->
        run self env force dry_run w = (r, w') /\ status r <> "error"%string).
Proof.
  unfold run. destruct (run_body self env force dry_run w) as [[r|e] w1] eqn:B.
  - split; [|split].
    + cbn [fst]. destruct r; cbn; tauto.
    + intros e w' [=].
    + intros r' w' [= <- <-]. split; [reflexivity|].
      revert B. unfold run_body, bindM, ret.
      destruct (_check_circuit_breakers env w) as [[ok|e] w0]; [|discriminate].
      destruct (negb ok); [by intros [= <- _]|].
      destruct (_save_trade_plan _ _ _ w0) as [[pid|e] w2]; [|discriminate].
      destruct (auto_execute self && negb dry_run).
      * destruct (_execute_trades _ _ _ w2) as [[res|e] w3]; [|discriminate].
        by intros [= <- _].
      * by intros [= <- _].
  - split; [|split].
    + cbn. tauto.
    + by intros e' w' [= <- <-].
    + intros r w' [=].
Qed.

(** Each stage without a handler of its own ends the run with the error
    status when it raises: the breaker check, the save, the execution. *)
Lemma stage_exceptions_become_error_results self env force dry_run w e :
  (redis_error env = Some e -> run self env force dry_run w = (Errored e, w))
  /\ (redis_error env = None -> kill_switch w = None -> breaker_account env = Raise e ->
      run self env force dry_run w = (Errored e, w)).
Proof.
  split.
  - intros H. unfold run, run_body, bindM, _check_circuit_breakers, bindM, redis_get.
    by rewrite H.
  - intros H1 H2 H3.
    unfold run, run_body, bindM, _check_circuit_breakers, bindM, redis_get, lift.
    by rewrite H1, H2, H3.
Qed.

(** *** Execution *)

(** The submitted list grows by one receipt per order that the broker
    accepts. *)
Lemma submit_loop_submitted env i os sub fl :
  (length sub < length (fst (submit_loop env i os sub fl)))%nat
  <-> exists k order, os !! k = Some order /\ is_ok (place_order env (i + k) order) = true.
Proof.
  assert (Hmono : forall os i sub fl,
             (length sub <= length (fst (submit_loop env i os sub fl)))%nat).
  { clear. induction os as [|o rest IH]; intros i sub fl; cbn [submit_loop fst]; [lia|].
    destruct (place_order env i o).
    - etrans; [|apply IH]. rewrite length_app. cbn. lia.
    - apply IH. }
  revert i sub fl. induction os as [|o rest IH]; intros i sub fl.
  - cbn. split; [lia|]. intros (k & order & H & _). by rewrite lookup_nil in H.
  - cbn [submit_loop]. destruct (place_order env i o) as [receipt|e] eqn:P.
    + split.
      * intros _. exists 0%nat, o. rewrite Nat.add_0_r, P. by split.
      * intros _. specialize (Hmono rest (S i) (sub ++ [receipt]) fl).
        rewrite length_app in Hmono. cbn in Hmono. lia.
    + rewrite IH. split.
      * intros (k & order & H1 & H2). exists (S k), order. split; [exact H1|].
        by rewrite Nat.add_succ_r.
      * intros (k & order & H1 & H2). destruct k as [|k].
        -- cbn in H1. injection H1 as <-. rewrite Nat.add_0_r, P in H2. discriminate.
        -- exists k, order. split; [exact H1|]. by rewrite Nat.add_succ_r in H2.
Qed.

(** C10.  For a completed run, the executed entry of the returned
    dictionary is the execution gate (auto-execute and not a dry run),
    while the executed flag of the persisted row is true exactly when the
    gate was open and the broker accepted at least one of the persisted
    orders; the two differ in the run of [calm_env] whose risk stage
    leaves no order: the result says executed, the row does not. *)
Theorem executed_result_is_the_gate
    (self : TradingPipeline) (env : Env) (force dry_run : bool) (w w' : World)
    (plan_id n_orders : nat) (the_mode : string) (was_executed : bool) :
  run self env force dry_run w = (Completed plan_id the_mode n_orders was_executed, w') ->
  was_executed = auto_execute self && negb dry_run
  /\ (exists row,
        trade_plans w' !! (plan_id - 1)%nat = Some row
        /\ n_orders = length (plan_orders row)
        /\ (executed row = true <->
             auto_execute self && negb dry_run = true
             /\ exists k order, plan_orders row !! k = Some order
                                /\ is_ok (place_order env k order) = true))
  /\ (exists row,
        run paper_pipeline calm_env false false fresh_world
        = (Completed 1 "paper" 0 true, {| kill_switch := None; trade_plans := [row] |})
        /\ plan_orders row = [] /\ executed row = false).
Proof.
  intros Hrun. assert (Hex : exists row,
        run paper_pipeline calm_env false false fresh_world
        = (Completed 1 "paper" 0 true, {| kill_switch := None; trade_plans := [row] |})
        /\ plan_orders row = [] /\ executed row = false).
  { eexists. repeat split. }
  revert Hrun. unfold run.
  destruct (run_body self env force dry_run w) as [[r|e] w1] eqn:B; [|discriminate].
  intros [= -> ->]. revert B. unfold run_body, bindM, ret.
  destruct (_check_circuit_breakers env w) as [[ok|e] w0]; [|discriminate].
  destruct (negb ok); [discriminate|].
  set (plan := _apply_risk_management env _).
  unfold _save_trade_plan. destruct (save_error env); [discriminate|].
  set (rows := trade_plans w0). set (row0 := db_plan_of self plan).
  assert (Hlook : (rows ++ [row0]) !! (S (length rows) - 1)%nat = Some row0).
  { replace (S (length rows) - 1)%nat with (length rows + 0)%nat by lia.
    by rewrite lookup_app_r, Nat.add_comm, Nat.add_sub by lia. }
  destruct (auto_execute self && negb dry_run) eqn:G.
  - unfold _execute_trades. cbn [trade_plans kill_switch orders].
    destruct (submit_loop env 0 (orders plan) [] []) as [sub fl] eqn:SL.
    destruct (update_error env); [discriminate|]. rewrite Hlook.
    intros [= <- <- <- <- <-]. split; [reflexivity|]. split; [|exact Hex].
    exists (set_executed row0 (0 <? length sub)%nat). split; [|split].
    + cbn [trade_plans].
      replace (length rows - 0)%nat with (length rows) by lia.
      replace (S (length rows) - 1)%nat with (length rows) by lia.
      apply list_lookup_insert_eq. rewrite length_app. cbn. lia.
    + reflexivity.
    + cbn [set_executed executed plan_orders]. unfold row0 at 1. cbn [db_plan_of plan_orders].
      pose proof (submit_loop_submitted env 0 (orders plan) [] []) as Hs.
      rewrite SL in Hs. cbn [fst length] in Hs. rewrite <- Hs.
      rewrite Nat.ltb_lt. tauto.
  - intros [= <- <- <- <- <-]. split; [reflexivity|]. split; [|exact Hex].
    exists row0. split; [exact Hlook|]. split; [reflexivity|].
    cbn [row0 db_plan_of executed]. split; [discriminate | intros [H _]; discriminate H].
Qed.

(** With an 18-share order that the broker refuses, the result still says
    executed; the persisted row does not. *)
Example every_submission_fails :
  exists row,
    run paper_pipeline rejecting_env false false fresh_world
    = (Completed 1 "paper" 1 true, {| kill_switch := None; trade_plans := [row] |})
    /\ map Risk.qty (plan_orders row) = [18%Z] /\ executed row = false.
Proof. eexists. repeat split. Qed.

Lemma executed_result_is_the_gate_witness :
  let w' := snd (run paper_pipeline calm_env false false fresh_world) in
  true = auto_execute paper_pipeline && negb false
  /\ (exists row,
        trade_plans w' !! (1 - 1)%nat = Some row
        /\ 0%nat = length (plan_orders row)
        /\ (executed row = true <->
             auto_execute paper_pipeline && negb false = true
             /\ exists k order, plan_orders row !! k = Some order
                                /\ is_ok (place_order calm_env k order) = true))
  /\ (exists row,
        run paper_pipeline calm_env false false fresh_world
        = (Completed 1 "paper" 0 true, {| kill_switch := None; trade_plans := [row] |})
        /\ plan_orders row = [] /\ executed row = false).
Proof.
  apply (executed_result_is_the_gate paper_pipeline calm_env false false fresh_world
           (snd (run paper_pipeline calm_env false false fresh_world)) 1 0 "paper" true).
  reflexivity.
Defined.

End PipelineSpec.


(** * Further properties *)

(** ** services/risk/risk.py: sizing, filtering, portfolio *)

Module RiskMore.
Import Py Risk PyFacts.
Local Open Scope Q_scope.

Lemma div_by_zero (a b : Q) : b == 0 -> exists msg, Py.div a b = Raise msg.
Proof.
  intros H. unfold Py.div. apply Qeq_bool_iff in H. rewrite H. eauto.
Qed.


(** X2.  When the price is at most 50000 and the strength-adjusted budget
    covers both 100 and one share, the position returned costs no more than
    that budget, hence no more than equity x max_position_size, and no more
    than 50000. *)
Theorem calculate_position_size_value_within_budget
    (self : RiskManager) (sym : string) (signal_strength account_equity current_price : Q) :
  0 < current_price -> current_price <= 50000 ->
  0 <= account_equity -> 0 <= max_position_size self ->
  0 <= signal_strength <= 1 ->
  let budget := account_equity * max_position_size self * Py.min 1 signal_strength in
  100 <= budget -> current_price <= budget ->
  exists shares,
    calculate_position_size self sym signal_strength account_equity current_price = Ok shares
    /\ inject_Z shares * current_price <= budget
    /\ budget <= account_equity * max_position_size self
    /\ inject_Z shares * current_price <= 50000.
Proof.
  intros Hp Hcap He Hf Hs budget H100 Hone.
  rewrite (RiskSpec.calculate_position_size_eq self sym signal_strength account_equity
             current_price Hp He Hf Hs).
  fold budget.
  set (f := Qfloor (budget / current_price)).
  set (lo := Z.max 1 (Qfloor (100 / current_price))).
  set (hi := Qfloor (50000 / current_price)).
  eexists. split; [reflexivity|].
  assert (Hdiv : forall a b, a <= b -> a / current_price <= b / current_price).
  { intros a b Hab. unfold Qdiv. apply Qmult_le_compat_r; [exact Hab|].
    apply Qlt_le_weak, Qinv_lt_0_compat, Hp. }
  assert (H1 : (1 <= f)%Z).
  { change 1%Z with (Qfloor 1). apply Qfloor_resp_le.
    apply Qle_shift_div_l; [exact Hp | lra]. }
  assert (H2 : (Qfloor (100 / current_price) <= f)%Z) by (apply Qfloor_resp_le, Hdiv, H100).
  assert (H3 : (1 <= hi)%Z).
  { change 1%Z with (Qfloor 1). apply Qfloor_resp_le.
    apply Qle_shift_div_l; [exact Hp | lra]. }
  assert (H4 : (Qfloor (100 / current_price) <= hi)%Z)
    by (apply Qfloor_resp_le, Hdiv; lra).
  assert (Hmul : forall (n : Z) x, (n <= Qfloor (x / current_price))%Z ->
                   inject_Z n * current_price <= x).
  { intros n x Hn. apply Qle_trans with (inject_Z (Qfloor (x / current_price)) * current_price).
    - apply Qmult_le_compat_r; [|lra]. by rewrite <- Zle_Qle.
    - apply Qle_trans with (x / current_price * current_price).
      + apply Qmult_le_compat_r; [apply Qfloor_le | lra].
      + unfold Qdiv. rewrite <- Qmult_assoc, (Qmult_comm (/ current_price)),
          Qmult_inv_r, Qmult_1_r by lra. lra. }
  split; [|split].
  - apply Hmul. fold f. unfold lo. lia.
  - unfold budget, Py.min.
    assert (0 <= account_equity * max_position_size self) by (by apply Qmult_le_0_compat).
    set (x := account_equity * max_position_size self) in *.
    destruct (Py.ltb signal_strength 1); nra.
  - apply Hmul. fold hi. unfold lo. lia.
Qed.

Lemma calculate_position_size_value_within_budget_witness :
  exists shares,
    calculate_position_size default_manager "TEST" 0.8 100000 100 = Ok shares
    /\ inject_Z shares * 100 <= 100000 * max_position_size default_manager * Py.min 1 0.8
    /\ 100000 * max_position_size default_manager * Py.min 1 0.8
       <= 100000 * max_position_size default_manager
    /\ inject_Z shares * 100 <= 50000.
Proof.
  apply (calculate_position_size_value_within_budget default_manager "TEST" 0.8 100000 100);
    vm_compute; try split; congruence.
Defined.

(** X3.  At a fixed equity and price, a stronger signal never yields a
    smaller position. *)
Theorem calculate_position_size_monotone_in_strength
    (self : RiskManager) (sym : string) (s1 s2 account_equity current_price : Q) :
  0 < current_price -> 0 <= account_equity -> 0 <= max_position_size self ->
  0 <= s1 -> s1 <= s2 -> s2 <= 1 ->
  exists n1 n2,
    calculate_position_size self sym s1 account_equity current_price = Ok n1
    /\ calculate_position_size self sym s2 account_equity current_price = Ok n2
    /\ (n1 <= n2)%Z.
Proof.
  intros Hp He Hf H1 H12 H2.
  rewrite (RiskSpec.calculate_position_size_eq self sym s1 account_equity current_price
             Hp He Hf ltac:(split; lra)).
  rewrite (RiskSpec.calculate_position_size_eq self sym s2 account_equity current_price
             Hp He Hf ltac:(split; lra)).
  do 2 eexists. split; [reflexivity|]. split; [reflexivity|].
  assert (Hfl : (Qfloor (account_equity * max_position_size self * Py.min 1 s1 / current_price)
                 <= Qfloor (account_equity * max_position_size self * Py.min 1 s2
                            / current_price))%Z).
  { apply Qfloor_resp_le. unfold Qdiv. apply Qmult_le_compat_r;
      [|apply Qlt_le_weak, Qinv_lt_0_compat, Hp].
    assert (Py.min 1 s1 <= Py.min 1 s2).
    { unfold Py.min. destruct (Py.ltb s1 1) eqn:E1, (Py.ltb s2 1) eqn:E2;
        try apply ltb_lt in E1; try apply ltb_lt in E2;
        try apply ltb_ge in E1; try apply ltb_ge in E2; lra. }
    assert (0 <= account_equity * max_position_size self) by (by apply Qmult_le_0_compat).
    set (x := account_equity * max_position_size self) in *. nra. }
  lia.
Qed.

Lemma calculate_position_size_monotone_in_strength_witness :
  exists n1 n2,
    calculate_position_size default_manager "TEST" 0.5 100000 100 = Ok n1
    /\ calculate_position_size default_manager "TEST" 0.8 100000 100 = Ok n2
    /\ (n1 <= n2)%Z.
Proof.
  apply (calculate_position_size_monotone_in_strength default_manager "TEST" 0.5 0.8 100000 100);
    vm_compute; congruence.
Defined.

(** *** Exposure filter *)

Section FilterAccounting.
Variables (fmt_f0 : Q -> string) (self : RiskManager).
Variables (account_equity current_gross current_long current_short : Q).

Lemma exposure_loop_accounts (proposed approved : list Order) (violations : list string)
    (approved' : list Order) (violations' : list string) :
  exposure_loop fmt_f0 self account_equity current_gross current_long current_short
    proposed approved violations = Ok (approved', violations') ->
  exists kept, approved' = approved ++ kept
    /\ kept `sublist_of` proposed
    /\ (length kept + (length violations' - length violations) = length proposed)%nat
    /\ (length violations <= length violations')%nat.
Proof.
  revert approved violations.
  induction proposed as [|order rest IH]; intros approved violations; cbn [exposure_loop].
  - intros [= <- <-]. exists []. rewrite app_nil_r. repeat split; [constructor | cbn; lia | lia].
  - assert (Hrej : forall msg,
      exposure_loop fmt_f0 self account_equity current_gross current_long current_short
        rest approved (violations ++ [msg]) = Ok (approved', violations') ->
      exists kept, approved' = approved ++ kept
        /\ kept `sublist_of` order :: rest
        /\ (length kept + (length violations' - length violations)
            = length (order :: rest))%nat
        /\ (length violations <= length violations')%nat).
    { intros msg H. destruct (IH _ _ H) as (kept & -> & Hsub & Hlen & Hle).
      rewrite length_app in Hlen, Hle. cbn in Hlen, Hle.
      exists kept. repeat split; [by apply sublist_cons | cbn; lia | lia]. }
    destruct (Py.ltb (account_equity * max_position_size self) (order_value_of order));
      [apply Hrej|].
    destruct (Py.ltb (account_equity * max_gross_exposure self)
                (current_gross + Qabs (order_value_of order))); [apply Hrej|].
    destruct (if String.eqb (side order) "buy" then _ else _) as [new_net|e]; [|discriminate].
    destruct (Py.ltb (max_net_exposure self) (Qabs new_net)); [apply Hrej|].
    intros H. destruct (IH _ _ H) as (kept & -> & Hsub & Hlen & Hle).
    exists (order :: kept). rewrite <- app_assoc. repeat split;
      [by apply sublist_skip | cbn; lia | lia].
Qed.

(** With a zero equity nothing is approved: an order either fails the
    single-name or the gross test, or the net test divides by zero. *)
Lemma exposure_loop_zero_equity (proposed approved : list Order) (violations : list string) :
  account_equity == 0 ->
  match exposure_loop fmt_f0 self account_equity current_gross current_long current_short
          proposed approved violations with
  | Ok (approved', _) => approved' = approved
  | Raise _ => True
  end.
Proof.
  intros Hz. revert violations.
  induction proposed as [|order rest IH]; intros violations; cbn [exposure_loop].
  - reflexivity.
  - destruct (Py.ltb (account_equity * max_position_size self) (order_value_of order));
      [apply IH|].
    destruct (Py.ltb (account_equity * max_gross_exposure self)
                (current_gross + Qabs (order_value_of order))); [apply IH|].
    destruct (String.eqb (side order) "buy");
      match goal with |- context [Py.div ?a ?b] =>
        destruct (div_by_zero a b Hz) as [msg ->] end; exact I.
Qed.
End FilterAccounting.

(** X4.  When [check_exposure_limits] returns, the approved orders are a
    sub-list of the proposed ones, in their order, and every other proposed
    order has exactly one violation message: no order is dropped silently. *)
Theorem check_exposure_limits_accounts_for_every_order
    (fmt_f0 : Q -> string) (self : RiskManager) (proposed : list Order)
    (positions : list Position) (account_equity : Q)
    (approved : list Order) (violations : list string) :
  check_exposure_limits fmt_f0 self proposed positions account_equity
  = Ok (approved, violations) ->
  approved `sublist_of` proposed
  /\ (length approved + length violations = length proposed)%nat.
Proof.
  intros H. apply exposure_loop_accounts in H.
  destruct H as (kept & -> & Hsub & Hlen & _). cbn in *. split; [exact Hsub | lia].
Qed.

Lemma check_exposure_limits_accounts_for_every_order_witness :
  [buy_order "AAA" 4 100; buy_order "BBB" 4 100]
    `sublist_of` [buy_order "AAA" 4 100; buy_order "BBB" 4 100]
  /\ (length [buy_order "AAA" 4 100; buy_order "BBB" 4 100] + length (@nil string)
      = length [buy_order "AAA" 4 100; buy_order "BBB" 4 100])%nat.
Proof.
  apply (check_exposure_limits_accounts_for_every_order fmt_any wide_manager
           [buy_order "AAA" 4 100; buy_order "BBB" 4 100] [] 1000).
  reflexivity.
Defined.

(** X5.  With an account equity of zero [check_exposure_limits] approves
    nothing: it either returns an empty approved list or raises on the
    division of the net test. *)
Theorem check_exposure_limits_zero_equity
    (fmt_f0 : Q -> string) (self : RiskManager) (proposed : list Order)
    (positions : list Position) (account_equity : Q) :
  account_equity == 0 ->
  (forall approved violations,
      check_exposure_limits fmt_f0 self proposed positions account_equity
      = Ok (approved, violations) -> approved = [])
  /\ (check_exposure_limits fmt_f0 self [buy_order "AAA" 0 100] [] 0
      = Raise "float division by zero").
Proof.
  intros Hz. split; [|reflexivity]. intros approved violations H.
  pose proof (exposure_loop_zero_equity fmt_f0 self account_equity
                (current_gross_of positions) (current_long_of positions)
                (current_short_of positions) proposed [] [] Hz) as Hloop.
  unfold check_exposure_limits in H. rewrite H in Hloop. exact Hloop.
Qed.

Lemma check_exposure_limits_zero_equity_witness :
  (forall approved violations,
      check_exposure_limits fmt_any default_manager [buy_order "AAA" 1 100] [] 0
      = Ok (approved, violations) -> approved = [])
  /\ (check_exposure_limits fmt_any default_manager [buy_order "AAA" 0 100] [] 0
      = Raise "float division by zero").
Proof.
  apply (check_exposure_limits_zero_equity fmt_any default_manager
           [buy_order "AAA" 1 100] [] 0).
  reflexivity.
Defined.

(** *** Stops and targets *)

(** X6.  For a positive entry price and positive percentages, a buy order's
    stop loss lies below the entry and its take profit above; for any other
    side string the two are mirrored. *)
Theorem stop_and_target_bracket_the_entry
    (self : RiskManager) (entry_price : Q) (sd : string) :
  0 < entry_price ->
  0 < default 0.05 (stop_loss_pct (config self)) ->
  0 < default 0.15 (take_profit_pct (config self)) ->
  (sd = "buy"%string ->
     calculate_stop_loss self entry_price sd < entry_price
     /\ entry_price < calculate_take_profit self entry_price sd)
  /\ (sd <> "buy"%string ->
       calculate_take_profit self entry_price sd < entry_price
       /\ entry_price < calculate_stop_loss self entry_price sd).
Proof.
  intros He Hs Ht. unfold calculate_stop_loss, calculate_take_profit.
  set (ps := default 0.05 (stop_loss_pct (config self))) in *.
  set (pt := default 0.15 (take_profit_pct (config self))) in *.
  split; intros Hsd.
  - subst sd. cbn [String.eqb Ascii.eqb Bool.eqb]. split; nra.
  - apply String.eqb_neq in Hsd. rewrite Hsd. split; nra.
Qed.

Lemma stop_and_target_bracket_the_entry_witness :
  ("buy"%string = "buy"%string ->
     calculate_stop_loss default_manager 100 "buy" < 100
     /\ 100 < calculate_take_profit default_manager 100 "buy")
  /\ ("buy"%string <> "buy"%string ->
       calculate_take_profit default_manager 100 "buy" < 100
       /\ 100 < calculate_stop_loss default_manager 100 "buy").
Proof.
  apply (stop_and_target_bracket_the_entry default_manager 100 "buy"); reflexivity.
Defined.

(** *** Portfolio construction *)

Lemma allocated_value_snoc (orders : list Order) (o : Order) :
  allocated_value (orders ++ [o]) = allocated_value orders + order_value_of o.
Proof. unfold allocated_value, Py.sum. by rewrite map_app, fold_left_app. Qed.

Lemma insert_by_score_In (s x : Signals.SignalEntry) (l : list Signals.SignalEntry) :
  In x (insert_by_score s l) -> x = s \/ In x l.
Proof.
  induction l as [|y l IH]; cbn.
  - intros [<-|[]]. by left.
  - destruct (Py.ltb (Signals.score y) (Signals.score s)); cbn.
    + intros [<-|[<-|H]]; auto.
    + intros [<-|H]; auto. destruct (IH H); auto.
Qed.

Lemma sorted_by_score_In (x : Signals.SignalEntry) (l : list Signals.SignalEntry) :
  In x (sorted_by_score l) -> In x l.
Proof.
  unfold sorted_by_score.
  assert (G : forall acc, In x (fold_left (fun acc s => insert_by_score s acc) l acc) ->
                          In x acc \/ In x l).
  { induction l as [|s l IH]; intros acc; cbn; [auto|].
    intros H. destruct (IH _ H) as [H'|H']; [|auto].
    destruct (insert_by_score_In _ _ _ H'); auto. }
  intros H. destruct (G [] H) as [[]|H']. exact H'.
Qed.

Section PortfolioLoop.
Variable latest_price : string -> result (option Signals.PriceData).
Variables (self : RiskManager) (account_equity : Q).
Variable considered : list Signals.SignalEntry.

Lemma optimize_loop_invariant (signals : list Signals.SignalEntry) (orders : list Order)
    (total_allocated : Q) (result : list Order) :
  (forall s, In s signals -> In s considered) ->
  total_allocated = allocated_value orders ->
  (orders = [] \/ total_allocated <= account_equity * max_gross_exposure self) ->
  Forall (sized_buy considered) orders ->
  optimize_loop latest_price self account_equity signals orders total_allocated = Ok result ->
  (result = [] \/ allocated_value result <= account_equity * max_gross_exposure self)
  /\ Forall (sized_buy considered) result
  /\ (length result <= length orders + length signals)%nat.
Proof.
  revert orders total_allocated.
  induction signals as [|signal rest IH]; intros orders total Hin Htot Hbud Hshape;
    cbn [optimize_loop].
  - intros [= <-]. subst total. repeat split; [exact Hbud | exact Hshape | lia].
  - assert (Hskip :
      optimize_loop latest_price self account_equity rest orders total = Ok result ->
      (result = [] \/ allocated_value result <= account_equity * max_gross_exposure self)
      /\ Forall (sized_buy considered) result
      /\ (length result <= length orders + length (signal :: rest))%nat).
    { intros H. destruct (IH orders total) as (A & B & C); auto.
      - intros s Hs. apply Hin. by right.
      - repeat split; auto. cbn. lia. }
    destruct (String.eqb (Signals.action signal) "buy") eqn:Hact; cbn [negb]; [|exact Hskip].
    destruct (latest_price (Signals.symbol signal)) as [[row|]|e]; [|exact Hskip|discriminate].
    destruct (calculate_position_size self (Signals.symbol signal) (Signals.score signal)
                (account_equity - total) (Signals.close row)) as [position_size|e];
      [|discriminate].
    destruct (0 <? position_size)%Z eqn:Hpos; [|exact Hskip].
    destruct (Py.ltb (account_equity * max_gross_exposure self)
                (total + inject_Z position_size * Signals.close row)) eqn:Hb.
    + intros [= <-]. subst total. repeat split; [exact Hbud | exact Hshape | cbn; lia].
    + intros H. apply ltb_ge in Hb.
      match type of H with optimize_loop _ _ _ _ (orders ++ [?x]) _ = _ => set (o := x) in * end.
      destruct (IH (orders ++ [o]) (total + inject_Z position_size * Signals.close row))
        as (A & B & C); auto.
      * intros s Hs. apply Hin. by right.
      * rewrite allocated_value_snoc. by subst total.
      * apply Forall_app. split; [exact Hshape|]. constructor; [|constructor].
        unfold sized_buy, o. cbn. apply Z.ltb_lt in Hpos. apply String.eqb_eq in Hact.
        repeat split; eauto; try lia.
        exists signal. repeat split; auto. apply Hin. by left.
      * repeat split; auto. rewrite length_app in C. cbn in *. lia.
Qed.
End PortfolioLoop.

(** X7.  When [optimize_portfolio] returns, the orders it built have a total
    value within equity x max_gross_exposure (or there are none). *)
Theorem optimize_portfolio_within_gross_budget
    (latest_price : string -> result (option Signals.PriceData)) (self : RiskManager)
    (signals : list Signals.SignalEntry) (account_data : AccountData) (orders : list Order) :
  optimize_portfolio latest_price self signals account_data = Ok orders ->
  orders = []
  \/ allocated_value orders <= default 100000 (equity account_data) * max_gross_exposure self.
Proof.
  intros H. unfold optimize_portfolio in H.
  eapply (optimize_loop_invariant latest_price self _ signals) in H; try reflexivity.
  - tauto.
  - intros s Hs. apply sorted_by_score_In. apply list_elem_of_In.
    eapply (subseteq_take 20). by apply list_elem_of_In.
  - by left.
  - constructor.
Qed.

(** X8.  The orders returned by [optimize_portfolio] number at most 20, and
    each is a market buy of at least one share with a price, a stop loss and
    a take profit, for a signal of the input whose action is buy. *)
Theorem optimize_portfolio_builds_sized_buys
    (latest_price : string -> result (option Signals.PriceData)) (self : RiskManager)
    (signals : list Signals.SignalEntry) (account_data : AccountData) (orders : list Order) :
  optimize_portfolio latest_price self signals account_data = Ok orders ->
  (length orders <= 20)%nat /\ Forall (sized_buy signals) orders.
Proof.
  intros H. unfold optimize_portfolio in H.
  eapply (optimize_loop_invariant latest_price self _ signals) in H; try reflexivity.
  - destruct H as (_ & B & C). split; [|exact B].
    rewrite length_take in C. change (length (@nil Order)) with 0%nat in C. lia.
  - intros s Hs. apply sorted_by_score_In. apply list_elem_of_In.
    eapply (subseteq_take 20). by apply list_elem_of_In.
  - by left.
  - constructor.
Qed.

Lemma optimize_portfolio_within_gross_budget_witness :
  [Pipeline.sized_order] = []
  \/ allocated_value [Pipeline.sized_order]
     <= default 100000 (equity (Pipeline.account_data Pipeline.flat_account))
        * max_gross_exposure default_manager.
Proof.
  apply (optimize_portfolio_within_gross_budget (fun _ => Ok (Some Pipeline.close_at_100))
           default_manager [Pipeline.strong_buy]
           (Pipeline.account_data Pipeline.flat_account) [Pipeline.sized_order]).
  reflexivity.
Defined.

Lemma optimize_portfolio_builds_sized_buys_witness :
  (length [Pipeline.sized_order] <= 20)%nat
  /\ Forall (sized_buy [Pipeline.strong_buy]) [Pipeline.sized_order].
Proof.
  apply (optimize_portfolio_builds_sized_buys (fun _ => Ok (Some Pipeline.close_at_100))
           default_manager [Pipeline.strong_buy]
           (Pipeline.account_data Pipeline.flat_account) [Pipeline.sized_order]).
  reflexivity.
Defined.

End RiskMore.

(** ** services/signals/signals.py: normalisation, scoring, audit rows *)

Module SignalsMore.
Import Py Signals PyFacts.
Local Open Scope Q_scope.

Lemma ltb_compat_r (a x y : Q) : x == y -> Py.ltb a x = Py.ltb a y.
Proof.
  intros H. destruct (Py.ltb a y) eqn:E.
  - apply ltb_lt. apply ltb_lt in E. by rewrite H.
  - apply ltb_ge. apply ltb_ge in E. by rewrite H.
Qed.

Lemma ltb_compat_l (a x y : Q) : x == y -> Py.ltb x a = Py.ltb y a.
Proof.
  intros H. destruct (Py.ltb y a) eqn:E.
  - apply ltb_lt. apply ltb_lt in E. by rewrite H.
  - apply ltb_ge. apply ltb_ge in E. by rewrite H.
Qed.

Lemma min_bounds (a b : Q) : Py.min a b <= a /\ Py.min a b <= b
                             /\ (Py.min a b = a \/ Py.min a b = b).
Proof.
  unfold Py.min. destruct (Py.ltb b a) eqn:E;
    [apply ltb_lt in E | apply ltb_ge in E]; repeat split; auto; lra.
Qed.


Section Normalisation.
Variable np_exp : Q -> Q.
Hypothesis np_exp_pos : forall x, 0 < np_exp x.



End Normalisation.




(** *** Neutral score *)

Section Neutral.
Variable np_exp : Q -> Q.

Lemma composite_loop_nothing_counts (weights : gmap string FactorConfig)
    (fs : list (string * Q)) (total_weight weighted_sum : Q) :
  Forall (fun f => match weights !! fst f with
                   | Some fc => enabled fc = Some false
                   | None => True
                   end) fs ->
  composite_loop np_exp weights fs total_weight weighted_sum = (total_weight, weighted_sum).
Proof.
  induction 1 as [|[name v] rest Hf Hrest IH]; cbn [composite_loop]; [reflexivity|].
  cbn [fst] in Hf. destruct (weights !! name) as [fc|]; [|exact IH].
  rewrite Hf. exact IH.
Qed.

(** X11.  When every computed factor is either absent from the configured
    table or disabled there, and in particular when the configuration has no
    table, the composite score is exactly 0.5. *)
Theorem composite_score_neutral_without_factors
    (self : StrategyConfig) (fs : list (string * Q)) :
  Forall (fun f => match default ∅ (factors self) !! fst f with
                   | Some fc => enabled fc = Some false
                   | None => True
                   end) fs ->
  calculate_composite_score np_exp self fs = 0.5.
Proof.
  intros H. unfold calculate_composite_score.
  by rewrite (composite_loop_nothing_counts _ _ 0 0 H).
Qed.
End Neutral.

Lemma composite_score_neutral_without_factors_witness :
  calculate_composite_score (fun _ => 1) {| factors := None |} (factor_map 0.1 25 0 3) = 0.5.
Proof.
  apply (composite_score_neutral_without_factors (fun _ => 1)).
  repeat constructor.
Defined.

(** *** What [generate_signals] returns *)

Section Generated.
Variable ta_rsi : nat -> list Q -> Q.
Variables ta_macd_signal ta_macd_diff : list Q -> Q.
Variable np_exp : Q -> Q.

Abbreviation score_symbol := (score_symbol ta_rsi ta_macd_signal ta_macd_diff np_exp).
Abbreviation signals_loop := (signals_loop ta_rsi ta_macd_signal ta_macd_diff np_exp).
Abbreviation generate_signals := (generate_signals ta_rsi ta_macd_signal ta_macd_diff np_exp).

(** A fact about every entry and every row follows from the same fact about
    what one symbol contributes. *)
Lemma signals_loop_ind self history symbols signals session
    (P : SignalEntry -> Prop) (R : SignalRow -> Prop) :
  (forall sym entry rows,
      score_symbol self sym (history sym) = Some (Ok (entry, rows)) ->
      P entry /\ Forall R rows /\ length rows = 4%nat) ->
  Forall P signals -> Forall R session ->
  (length session = 4 * length signals)%nat ->
  Forall P (fst (signals_loop self history symbols signals session))
  /\ Forall R (snd (signals_loop self history symbols signals session))
  /\ (length (snd (signals_loop self history symbols signals session))
      = 4 * length (fst (signals_loop self history symbols signals session)))%nat.
Proof.
  intros Hstep. revert signals session.
  induction symbols as [|sym rest IH]; intros signals session Hs Hr Hl.
  - cbn. auto.
  - cbn [Signals.signals_loop].
    destruct (score_symbol self sym (history sym)) as [[[entry rows]|msg]|] eqn:E;
      try (apply IH; assumption).
    destruct (Hstep _ _ _ E) as (He & Hrows & H4).
    apply IH; try (apply Forall_app; split; auto).
    rewrite !length_app, H4. cbn. lia.
Qed.

Lemma score_symbol_shape self sym prices entry rows :
  score_symbol self sym prices = Some (Ok (entry, rows)) ->
  (action entry = (if Py.ltb 0.6 (score entry) then "buy"
                   else if Py.ltb (score entry) 0.4 then "sell" else "hold")%string)
  /\ Forall (fun row => row_symbol row = symbol entry
                        /\ In (factor_name row)
                             ["momentum"; "rsi"; "macd_histogram"; "volume_surge"]%string
                        /\ (is_Some (row_rationale row)
                            <-> factor_name row = "momentum"%string)
                        /\ normalized_score row
                           = normalize_factor np_exp (factor_name row) (raw_value row)) rows
  /\ length rows = 4%nat.
Proof.
  unfold Signals.score_symbol.
  destruct (length prices <? 20)%nat; [discriminate|].
  destruct (factors self); [|discriminate].
  intros [= <- <-]. split; [reflexivity|]. split; [|reflexivity].
  cbn [map].
  repeat (apply List.Forall_cons;
          [cbn; repeat split; auto 6;
           try (intros [x Hx]; discriminate Hx); try discriminate; try (intros _; eauto)|]).
  apply List.Forall_nil.
Qed.

Lemma signals_loop_row_symbols self history symbols signals session :
  Forall (fun row => In (row_symbol row) (map symbol signals)) session ->
  Forall (fun row => In (row_symbol row)
                       (map symbol (fst (signals_loop self history symbols signals session))))
         (snd (signals_loop self history symbols signals session)).
Proof.
  revert signals session.
  induction symbols as [|sym rest IH]; intros signals session Hr; [exact Hr|].
  cbn [Signals.signals_loop].
  destruct (score_symbol self sym (history sym)) as [[[entry rows]|msg]|] eqn:E;
    try (apply IH; assumption).
  destruct (score_symbol_shape _ _ _ _ _ E) as (_ & Hrows & _).
  apply IH. apply Forall_app. split.
  - eapply Forall_impl; [exact Hr|]. intros row Hin. rewrite map_app.
    apply in_or_app. by left.
  - eapply Forall_impl; [exact Hrows|]. intros row (-> & _). rewrite map_app.
    apply in_or_app. right. by left.
Qed.

(** X12.  Every entry returned by [generate_signals] is labelled from its
    score (buy above 0.6, sell below 0.4, hold otherwise) and comes with
    exactly four audit rows, one per factor, which carry the entry's symbol
    and the normalised value of their raw value; the rationale is stored on
    the momentum row only. *)
Theorem generate_signals_entries_and_rows
    (self : StrategyConfig) (universe : list string)
    (history : string -> list PriceData) (symbols : list string) :
  let out := generate_signals self universe history symbols in
  (length (snd out) = 4 * length (fst out))%nat
  /\ (forall entry, In entry (fst out) ->
        action entry = (if Py.ltb 0.6 (score entry) then "buy"
                        else if Py.ltb (score entry) 0.4 then "sell" else "hold")%string)
  /\ (forall row, In row (snd out) ->
        In (row_symbol row) (map symbol (fst out))
        /\ In (factor_name row) ["momentum"; "rsi"; "macd_histogram"; "volume_surge"]%string
        /\ (is_Some (row_rationale row) <-> factor_name row = "momentum"%string)
        /\ normalized_score row = normalize_factor np_exp (factor_name row) (raw_value row)).
Proof.
  intros out.
  set (requested := match symbols with [] => universe | _ => symbols end).
  destruct (signals_loop_ind self history requested [] []
              (fun entry => action entry
                 = (if Py.ltb 0.6 (score entry) then "buy"
                    else if Py.ltb (score entry) 0.4 then "sell" else "hold")%string)
              (fun row => In (factor_name row)
                            ["momentum"; "rsi"; "macd_histogram"; "volume_surge"]%string
                          /\ (is_Some (row_rationale row)
                              <-> factor_name row = "momentum"%string)
                          /\ normalized_score row
                             = normalize_factor np_exp (factor_name row) (raw_value row))
              ltac:(intros sym entry rows E;
                    destruct (score_symbol_shape _ _ _ _ _ E) as (A & B & C);
                    split; [exact A|]; split; [|exact C];
                    eapply Forall_impl; [exact B|]; cbn; tauto)
              ltac:(constructor) ltac:(constructor) ltac:(reflexivity)) as (Hs & Hr & Hl).
  change (signals_loop self history requested [] []) with out in Hs, Hr, Hl.
  rewrite Forall_forall in Hs. rewrite Forall_forall in Hr.
  split; [exact Hl|]. split.
  - intros entry Hin. apply Hs. by apply list_elem_of_In.
  - intros row Hin. split; [|apply Hr; by apply list_elem_of_In].
    pose proof (signals_loop_row_symbols self history requested [] []
                  ltac:(constructor)) as Hsym.
    change (signals_loop self history requested [] []) with out in Hsym.
    rewrite Forall_forall in Hsym. apply Hsym. by apply list_elem_of_In.
Qed.
Lemma default_action_from_volume (sc v : Q) :
  sc == normalize_factor np_exp "volume_surge" v ->
  let act := (if Py.ltb 0.6 sc then "buy"
              else if Py.ltb sc 0.4 then "sell" else "hold")%string in
  (act = "buy"%string <-> 2 < v) /\ (act = "hold"%string <-> v <= 2) /\ act <> "sell"%string.
Proof.
  intros Hsc act. unfold act.
  rewrite (ltb_compat_r 0.6 _ _ Hsc), (ltb_compat_l 0.4 _ _ Hsc).
  unfold normalize_factor. cbn [String.eqb Ascii.eqb Bool.eqb].
  destruct (Py.ltb 2 v) eqn:V.
  - apply ltb_lt in V.
    destruct (min_bounds 1 (0.5 + (v - 1) * 0.25)) as (_ & _ & [C|C]); rewrite C.
    + replace (Py.ltb 0.6 1) with true by reflexivity.
      repeat split; try discriminate; auto; intros; lra.
    + assert (L : Py.ltb 0.6 (0.5 + (v - 1) * 0.25) = true) by (apply ltb_lt; lra).
      rewrite L. repeat split; try discriminate; auto; intros; lra.
  - apply ltb_ge in V.
    replace (Py.ltb 0.6 0.5) with false by reflexivity.
    replace (Py.ltb 0.5 0.4) with false by reflexivity.
    repeat split; try discriminate; auto; intros; lra.
Qed.

(** X13.  Under the default configuration the action of every returned
    entry depends on the volume-surge ratio alone: buy exactly when the
    ratio exceeds 2, hold otherwise, and never sell. *)
Theorem default_config_buys_on_volume_surge_only
    (universe : list string) (history : string -> list PriceData) (symbols : list string) :
  Forall (fun entry =>
            exists m r h v,
              entry_factors entry = factor_map m r h v
              /\ (action entry = "buy"%string <-> 2 < v)
              /\ (action entry = "hold"%string <-> v <= 2)
              /\ action entry <> "sell"%string)
         (fst (generate_signals default_config universe history symbols)).
Proof.
  destruct (SignalsSpec.signals_loop_default ta_rsi ta_macd_signal ta_macd_diff np_exp history
              (match symbols with [] => universe | _ => symbols end) [] []
              (fun entry => exists m r h v,
                   entry_factors entry = factor_map m r h v
                   /\ (action entry = "buy"%string <-> 2 < v)
                   /\ (action entry = "hold"%string <-> v <= 2)
                   /\ action entry <> "sell"%string)
              (fun _ => True)
              ltac:(intros sym entry rows E;
                    destruct (SignalsSpec.score_symbol_default _ _ _ _ _ _ _ _ E)
                      as (m & r & h & v & H1 & H2 & _);
                    destruct (score_symbol_shape _ _ _ _ _ E) as (A & _ & _);
                    split; [|by apply Forall_true];
                    exists m, r, h, v; split; [exact H1|];
                    rewrite A; exact (default_action_from_volume _ _ H2))
              ltac:(constructor) ltac:(constructor)) as [Hs _].
  exact Hs.
Qed.

(** X14.  A configuration without a factors table yields no signal and no
    audit row, whatever the symbols and their history. *)
Theorem generate_signals_without_factors_table
    (universe : list string) (history : string -> list PriceData) (symbols : list string) :
  generate_signals {| factors := None |} universe history symbols = ([], []).
Proof.
  unfold Signals.generate_signals.
  induction (match symbols with [] => universe | _ => symbols end) as [|sym rest IH];
    [reflexivity|].
  cbn [Signals.signals_loop]. unfold Signals.score_symbol at 1.
  destruct (length (history sym) <? 20)%nat; exact IH.
Qed.
End Generated.

End SignalsMore.

(** ** Providers and chains: batches, priority, cooldown bookkeeping *)

Module ChainMore.
Import Py Providers.

(** *** One provider *)

(** X15.  In a provider class that breaks on the rate-limit signal, the
    symbols listed after a rate-limited one are not requested: the outcome
    is that of the symbols before it. *)
Theorem fetch_loop_stops_at_rate_limit
    (skip_empty : bool) (respond : string -> reply) (before after : list string)
    (sym : string) (results : gmap string DataFrame) :
  respond sym = RateLimited ->
  fetch_loop true skip_empty respond (before ++ sym :: after) results
  = fetch_loop true skip_empty respond before results.
Proof.
  intros Hlim. revert results.
  induction before as [|s rest IH]; intros results; cbn [app fetch_loop].
  - by rewrite Hlim.
  - destruct (respond s) as [df| | |]; try apply IH; [|reflexivity].
    destruct (skip_empty && empty df); apply IH.
Qed.

Lemma fetch_loop_stops_at_rate_limit_witness :
  fetch_loop true false (fun s => if String.eqb s "MSFT" then RateLimited else Bars [one_bar])
    (["AAPL"%string] ++ "MSFT"%string :: ["NVDA"%string]) ∅
  = fetch_loop true false (fun s => if String.eqb s "MSFT" then RateLimited else Bars [one_bar])
      ["AAPL"%string] ∅.
Proof.
  apply (fetch_loop_stops_at_rate_limit false
           (fun s => if String.eqb s "MSFT" then RateLimited else Bars [one_bar])
           ["AAPL"%string] ["NVDA"%string] "MSFT" ∅).
  reflexivity.
Defined.

(** A frame stored under a symbol came from the service's answer for that
    symbol (or was there before). *)
Lemma fetch_loop_sound (stop skip : bool) (respond : string -> reply)
    (symbols : list string) (results : gmap string DataFrame) (sym : string) (df : DataFrame) :
  fetch_loop stop skip respond symbols results !! sym = Some df ->
  results !! sym = Some df
  \/ (sym ∈ symbols /\ respond sym = Bars df /\ skip && empty df = false).
Proof.
  revert results. induction symbols as [|s rest IH]; intros results; cbn [fetch_loop].
  - by left.
  - assert (Hk : fetch_loop stop skip respond rest results !! sym = Some df ->
                 results !! sym = Some df
                 \/ (sym ∈ s :: rest /\ respond sym = Bars df /\ skip && empty df = false)).
    { intros H. destruct (IH _ H) as [H'|(A & B & C)]; [by left | right].
      split; [by right | done]. }
    destruct (respond s) as [d| | |] eqn:R; try exact Hk.
    + destruct (skip && empty d) eqn:SE; [exact Hk|].
      intros H. destruct (IH _ H) as [H'|(A & B & C)].
      * rewrite lookup_insert in H'. case_decide; [|by left].
        subst s. injection H' as <-. right. split; [by left | done].
      * right. split; [by right | done].
    + destruct stop; [by left | exact Hk].
Qed.

Lemma fetch_loop_keeps (stop skip : bool) (respond : string -> reply)
    (symbols : list string) (results : gmap string DataFrame) (sym : string) (df : DataFrame) :
  respond sym = Bars df -> results !! sym = Some df ->
  fetch_loop stop skip respond symbols results !! sym = Some df.
Proof.
  intros Hr. revert results. induction symbols as [|s rest IH]; intros results Hl;
    cbn [fetch_loop]; [exact Hl|].
  destruct (respond s) as [d| | |] eqn:R; try (by apply IH).
  - destruct (skip && empty d); [by apply IH|]. apply IH.
    rewrite lookup_insert. case_decide; [|exact Hl]. subst s. congruence.
  - destruct stop; [exact Hl | by apply IH].
Qed.

Lemma fetch_loop_complete (stop skip : bool) (respond : string -> reply)
    (symbols : list string) (results : gmap string DataFrame) (sym : string) (df : DataFrame) :
  (stop = false \/ Forall (fun s => respond s <> RateLimited) symbols) ->
  sym ∈ symbols -> respond sym = Bars df -> skip && empty df = false ->
  fetch_loop stop skip respond symbols results !! sym = Some df.
Proof.
  intros Hno Hin Hr Hse. revert results.
  induction symbols as [|s rest IH]; intros results; [by apply elem_of_nil in Hin|].
  assert (Hrest : stop = false \/ Forall (fun s => respond s <> RateLimited) rest).
  { destruct Hno as [H|H]; [by left | right; by inversion H]. }
  assert (Hhere : stop = false \/ respond s <> RateLimited).
  { destruct Hno as [H|H]; [by left | right; by inversion H]. }
  cbn [fetch_loop]. apply elem_of_cons in Hin. destruct Hin as [->|Hin].
  - rewrite Hr, Hse. apply fetch_loop_keeps; [exact Hr|]. apply lookup_insert_eq.
  - destruct (respond s) as [d| | |] eqn:R; try (by apply IH).
    + destruct (skip && empty d); by apply IH.
    + destruct Hhere as [->|H]; [by apply IH | done].
Qed.

(** X16.  A configured provider of services/api/data_providers.py other
    than Alpha Vantage returns exactly the frames the service sent for the
    requested symbols (Yahoo Finance: the non-empty ones), and for an
    unconfigured provider the call raises. *)
Theorem api_provider_returns_what_the_service_sent
    (p : DataProvider) (symbols : list string) :
  (configured p = false -> exists msg, ApiChain.provider_fetch p symbols = Raise msg)
  /\ (configured p = true -> provider_kind p <> AlphaVantage ->
       exists results,
         ApiChain.provider_fetch p symbols = Ok results
         /\ forall sym df,
              results !! sym = Some df
              <-> sym ∈ symbols /\ respond p sym = Bars df
                  /\ (provider_kind p = YFinance -> df <> [])).
Proof.
  unfold ApiChain.provider_fetch, is_available. split; intros Hc; rewrite Hc; cbn [negb].
  - eauto.
  - intros Hk. eexists. split; [reflexivity|]. intros sym df.
    assert (Hstop : ApiChain.stops_on_limit (provider_kind p) = false)
      by (by destruct (provider_kind p)).
    assert (Hskip : skips_empty (provider_kind p) && empty df = false
                    <-> (provider_kind p = YFinance -> df <> [])).
    { destruct (provider_kind p), df; cbn; split; try done; try (intros H; by apply H).
      intros H. by specialize (H eq_refl). }
    rewrite <- Hskip. split.
    + intros H. apply fetch_loop_sound in H. destruct H as [H|H]; [|exact H].
      by rewrite lookup_empty in H.
    + intros (A & B & C). apply fetch_loop_complete; auto.
Qed.

(** *** The chain of services/api/data_providers.py *)

Lemma merge_fold_values (l : list (string * DataFrame))
    (all_results : gmap string DataFrame) (remaining : gset string) :
  NoDup (map fst l) ->
  let out := fold_left (fun '(a, r) '(sym, df) =>
                          if empty df then (a, r) else (<[sym := df]> a, r ∖ {[sym]}))
                       l (all_results, remaining) in
  (forall sym df, (sym, df) ∈ l -> df <> [] -> fst out !! sym = Some df)
  /\ (forall sym, sym ∉ map fst l -> fst out !! sym = all_results !! sym).
Proof.
  revert all_results remaining.
  induction l as [|[s d] l IH]; intros a r Hnd; cbn [fold_left].
  - split; [intros sym df H; by apply elem_of_nil in H | done].
  - cbn [map fst] in Hnd. apply NoDup_cons in Hnd. destruct Hnd as [Hs Hnd].
    destruct d as [|bar d']; cbn [empty].
    + destruct (IH a r Hnd) as [A B]. split.
      * intros sym df Hin Hne. apply elem_of_cons in Hin.
        destruct Hin as [[= -> ->]|Hin]; [done | by apply A].
      * intros sym Hnot. apply B. intros H. apply Hnot. by right.
    + destruct (IH (<[s := bar :: d']> a) (r ∖ {[s]}) Hnd) as [A B]. split.
      * intros sym df Hin Hne. apply elem_of_cons in Hin.
        destruct Hin as [[= -> ->]|Hin]; [|by apply A].
        rewrite B by exact Hs. apply lookup_insert_eq.
      * intros sym Hnot. rewrite B by (intros H; apply Hnot; by right).
        apply lookup_insert_ne. intros ->. apply Hnot. by left.
Qed.

(** Merging an answer whose symbols were all still remaining stores each of
    its non-empty frames and leaves the frames already stored alone. *)
Lemma merge_results_values (results all_results : gmap string DataFrame)
    (remaining : gset string) :
  dom results ⊆ remaining -> dom all_results ∩ remaining = ∅ ->
  let out := merge_results results (all_results, remaining) in
  (forall sym df, results !! sym = Some df -> df <> [] -> fst out !! sym = Some df)
  /\ (forall sym df, all_results !! sym = Some df -> fst out !! sym = Some df).
Proof.
  intros Hdom Hdisj out.
  destruct (merge_fold_values (map_to_list results) all_results remaining
              (NoDup_fst_map_to_list results)) as [A B].
  split.
  - intros sym df H Hne. apply A; [|exact Hne]. by apply elem_of_map_to_list.
  - intros sym df H. unfold out, merge_results. rewrite B; [exact H|].
    intros Hin. apply list_elem_of_fmap in Hin. destruct Hin as ([s d] & -> & Hin).
    apply elem_of_map_to_list in Hin. cbn in *.
    assert (s ∈ dom results) by (apply elem_of_dom; eauto).
    assert (s ∈ dom all_results) by (apply elem_of_dom; eauto).
    set_solver.
Qed.

Section ApiCalls.
Variable listing : gset string -> list string.
Hypothesis listing_perm : forall X, listing X ≡ₚ elements X.
Variable providers0 : list (string * DataProvider).
Variable requested : gset string.

Lemma listing_nonempty (X : gset string) : X <> ∅ -> listing X <> [].
Proof.
  intros HX Hnil. apply HX. apply set_eq. intros x.
  rewrite <- (ChainSpec.listing_subset listing listing_perm X), Hnil. set_solver.
Qed.

Lemma api_chain_loop_calls providers all_results remaining calls :
  (forall np, In np providers -> In np providers0) ->
  partitions requested (all_results, remaining) ->
  let out := ApiChain.chain_loop listing providers all_results remaining calls in
  exists made,
    snd out = calls ++ made
    /\ map call_name made `sublist_of` map fst providers
    /\ Forall (proper_call providers0 requested) made
    /\ Forall (frames_delivered (fst (fst out))) made
    /\ (forall sym df, all_results !! sym = Some df -> fst (fst out) !! sym = Some df).
Proof.
  revert all_results remaining calls.
  induction providers as [|[name p] rest IH]; intros all_results remaining calls Hin Hst;
    cbn [ApiChain.chain_loop].
  - exists []. rewrite app_nil_r. repeat split; auto; constructor.
  - destruct (decide (remaining = ∅)) as [He|Hne].
    { exists []. rewrite app_nil_r. repeat split; auto; try constructor.
      apply sublist_nil_l. }
    assert (Hrest : forall np, In np rest -> In np providers0)
      by (intros np H; apply Hin; by right).
    destruct (negb (is_available p)) eqn:Hav.
    { destruct (IH all_results remaining calls Hrest Hst) as (made & A & B & C & D & E).
      exists made. repeat split; auto. by apply sublist_cons. }
    unfold ApiChain.provider_fetch. rewrite Hav.
    set (batch := listing remaining).
    set (results := fetch_loop _ _ _ batch ∅).
    destruct (merge_results results (all_results, remaining)) as [all' rem'] eqn:M.
    assert (Hdom : dom results ⊆ remaining).
    { etrans; [apply ChainSpec.fetch_loop_dom|]. rewrite dom_empty_L.
      unfold batch. rewrite (ChainSpec.listing_subset listing listing_perm). set_solver. }
    destruct Hst as (Hu & Hd & Hnonempty). cbn [fst snd] in Hu, Hd, Hnonempty.
    destruct (merge_results_values results all_results remaining Hdom Hd) as [Hnew Hold].
    rewrite M in Hnew, Hold. cbn [fst] in Hnew, Hold.
    assert (Hst' : partitions requested (all', rem')).
    { rewrite <- M. apply ChainSpec.merge_results_partitions; [set_solver | done]. }
    destruct (IH all' rem' (calls ++ [(name, batch, Ok results)]) Hrest Hst')
      as (made & A & B & C & D & E).
    exists ((name, batch, Ok results) :: made). repeat split.
    + rewrite A, <- app_assoc. reflexivity.
    + cbn. by apply sublist_skip.
    + constructor; [|exact C]. unfold proper_call. cbn. repeat split.
      * by apply listing_nonempty.
      * intros sym Hs. unfold batch in Hs. rewrite (listing_perm remaining) in Hs.
        apply elem_of_elements in Hs. set_solver.
      * exists p. split; [apply Hin; by left|].
        unfold is_available in Hav. by destruct (configured p).
      * eauto.
    + constructor; [|exact D]. intros res sym df [= <-] Hl Hdf. apply E. by apply Hnew.
    + intros sym df H. apply E. by apply Hold.
Qed.
End ApiCalls.

(** X17.  The chain of services/api/data_providers.py calls the providers
    in list order, each at most once and only when configured, always with a
    non-empty batch of requested symbols; such a call never raises, and
    every non-empty frame it returns is in the final dictionary, so that no
    later provider replaces data served by an earlier one. *)
Theorem api_chain_calls_are_proper
    (listing : gset string -> list string)
    (providers : list (string * DataProvider)) (symbols : list string) :
  (forall X, listing X ≡ₚ elements X) ->
  let out := ApiChain.fetch_daily_bars listing providers symbols in
  map call_name (snd out) `sublist_of` map fst providers
  /\ Forall (proper_call providers (list_to_set symbols)) (snd out)
  /\ Forall (frames_delivered (fst (fst out))) (snd out).
Proof.
  intros Hl out.
  destruct (api_chain_loop_calls listing Hl providers (list_to_set symbols)
              providers ∅ (list_to_set symbols) []) as (made & A & B & C & D & _).
  - auto.
  - unfold partitions. cbn [fst snd]. rewrite dom_empty_L.
    split; [set_solver|]. split; [set_solver|]. intros sym df. by rewrite lookup_empty.
  - cbn [app] in A. unfold out, ApiChain.fetch_daily_bars. rewrite A. auto.
Qed.

Lemma api_chain_calls_are_proper_witness :
  let providers := ApiChain.providers_of (silent Finnhub) (unconfigured AlphaVantage)
                     (unconfigured Polygon) (generous YFinance) in
  let out := ApiChain.fetch_daily_bars elements providers ["AAPL"; "MSFT"]%string in
  map call_name (snd out) `sublist_of` map fst providers
  /\ Forall (proper_call providers (list_to_set ["AAPL"; "MSFT"]%string)) (snd out)
  /\ Forall (frames_delivered (fst (fst out))) (snd out).
Proof.
  apply (api_chain_calls_are_proper elements).
  intros X. reflexivity.
Defined.

(** *** The chain of libs/data_providers.py *)

Section LibCalls.
Import LibChain.
Local Open Scope Q_scope.
Variable listing : gset string -> list string.
Variable clock : nat -> Q.

Abbreviation attempt := (LibChain.attempt listing clock).
Abbreviation visit := (LibChain.visit listing clock).
Abbreviation chain_loop := (LibChain.chain_loop listing clock).

(** What an attempt on an available provider does to the call log and to
    the cooldown table. *)
Lemma attempt_available name p st :
  is_available p = true ->
  (forall c, snd (attempt name p st) = Some c ->
     call_name c = name
     /\ (exists results, call_outcome c = Ok results)
     /\ (name = "Alpha Vantage"%string -> (length (call_batch c) <= 3)%nat)
     /\ (name = "Polygon"%string -> (length (call_batch c) <= 10)%nat))
  /\ (forall k u, k <> "Finnhub"%string ->
        provider_cooldowns (fst (attempt name p st)) !! k = Some u ->
        provider_cooldowns st !! k = Some u).
Proof.
  intros Hav. unfold LibChain.attempt.
  destruct (String.eqb name "Alpha Vantage" && (10 <? size (remaining_symbols st))%nat).
  { split; [discriminate | auto]. }
  set (batch := if String.eqb name "Alpha Vantage" then _ else _).
  assert (Hb : (name = "Alpha Vantage"%string -> (length batch <= 3)%nat)
               /\ (name = "Polygon"%string -> (length batch <= 10)%nat)).
  { unfold batch. split; intros ->; cbn [String.eqb Ascii.eqb Bool.eqb];
      rewrite length_take; lia. }
  unfold provider_fetch. rewrite Hav. cbn [negb].
  set (results := fetch_loop _ _ _ _ ∅).
  destruct (merge_results results _) as [a r]. cbn [fst snd]. split.
  - intros c [= <-]. cbn. repeat split; [eauto | tauto | tauto].
  - intros k u Hk. destruct (Py.ltb _ _); cbn [andb]; [|auto].
    destruct (String.eqb name "Finnhub") eqn:F; [|auto].
    apply String.eqb_eq in F. subst name. cbn. by rewrite lookup_insert_ne.
Qed.

Lemma visit_calls_and_cooldowns name p st :
  (forall c, snd (visit name p st) = Some c ->
     call_name c = name
     /\ (exists results, call_outcome c = Ok results)
     /\ (name = "Alpha Vantage"%string -> (length (call_batch c) <= 3)%nat)
     /\ (name = "Polygon"%string -> (length (call_batch c) <= 10)%nat))
  /\ (forall k u, k <> "Finnhub"%string ->
        provider_cooldowns (fst (visit name p st)) !! k = Some u ->
        provider_cooldowns st !! k = Some u).
Proof.
  unfold LibChain.visit.
  destruct (provider_cooldowns st !! name) as [u0|] eqn:E.
  - destruct (Py.ltb (clock (reads st)) u0); [split; [discriminate | auto]|].
    assert (Hdel : forall k u,
              delete name (provider_cooldowns st) !! k = Some u ->
              provider_cooldowns st !! k = Some u).
    { intros k u. rewrite lookup_delete. case_decide; [discriminate | done]. }
    destruct (is_available p) eqn:Hav; cbn [negb fst snd].
    + match goal with |- context [attempt name p ?s] =>
        destruct (attempt_available name p s Hav) as [A B] end.
      split; [exact A|]. intros k u Hk H. apply Hdel. by apply (B k u Hk).
    + split; [discriminate|]. intros k u _. apply Hdel.
  - destruct (is_available p) eqn:Hav; cbn [negb]; [|split; [discriminate | auto]].
    by apply attempt_available.
Qed.

Lemma chain_loop_calls_and_cooldowns providers st :
  Forall (fun c => (exists results, call_outcome c = Ok results)
                   /\ (call_name c = "Alpha Vantage"%string ->
                       (length (call_batch c) <= 3)%nat)
                   /\ (call_name c = "Polygon"%string ->
                       (length (call_batch c) <= 10)%nat))
         (snd (chain_loop providers st))
  /\ (forall k u, k <> "Finnhub"%string ->
        provider_cooldowns (fst (chain_loop providers st)) !! k = Some u ->
        provider_cooldowns st !! k = Some u).
Proof.
  revert st. induction providers as [|[name p] rest IH]; intros st.
  - split; [constructor | auto].
  - rewrite ChainSpec.chain_loop_cons.
    destruct (decide (remaining_symbols st = ∅)); [split; [constructor | auto]|].
    destruct (visit_calls_and_cooldowns name p st) as [A B].
    destruct (IH (fst (visit name p st))) as [C D]. cbn [fst snd]. split.
    + destruct (snd (visit name p st)) as [c|]; [|exact C].
      constructor; [|exact C]. destruct (A c eq_refl) as (Hn & Hok & Hav & Hpo).
      rewrite Hn. tauto.
    + intros k u Hk H. apply (B k u Hk). by apply (D k u Hk).
Qed.
End LibCalls.

(** X18.  With the providers of libs/data_providers.py a call made by the
    chain never raises (so the rate-limit handler of the chain is never
    entered), an Alpha Vantage call carries at most 3 symbols and a Polygon
    call at most 10, and no provider other than Finnhub is ever put in
    cooldown: such an entry of the final table was there at the start. *)
Theorem lib_chain_calls_and_cooldowns
    (listing : gset string -> list string) (clock : nat -> Q)
    (providers : list (string * DataProvider)) (cooldowns : gmap string Q)
    (symbols : list string) :
  let out := LibChain.fetch_daily_bars listing clock providers cooldowns symbols in
  Forall (fun c => (exists results, call_outcome c = Ok results)
                   /\ (call_name c = "Alpha Vantage"%string ->
                       (length (call_batch c) <= 3)%nat)
                   /\ (call_name c = "Polygon"%string ->
                       (length (call_batch c) <= 10)%nat))
         (snd out)
  /\ (forall name u, name <> "Finnhub"%string ->
        LibChain.provider_cooldowns (fst out) !! name = Some u ->
        cooldowns !! name = Some u).
Proof.
  intros out. unfold out, LibChain.fetch_daily_bars.
  destruct (chain_loop_calls_and_cooldowns listing clock providers
              {| LibChain.all_results := ∅;
                 LibChain.remaining_symbols := list_to_set symbols;
                 LibChain.provider_cooldowns := cooldowns; LibChain.reads := 0 |}) as [A B].
  split; [exact A | exact B].
Qed.

(** X19.  Once the clock has reached the deadline of a provider in
    cooldown, the entry is removed and, if the provider is available (and is
    not Alpha Vantage, which has its own quota test), it is called again; the
    table then holds no entry for it, unless it is Finnhub and a new
    cooldown of 60 seconds was set from the following clock reading. *)
Theorem lib_chain_retries_after_expiry
    (listing : gset string -> list string) (clock : nat -> Q)
    (name : string) (p : DataProvider) (st : LibChain.state) (u : Q) :
  LibChain.provider_cooldowns st !! name = Some u ->
  (u <= clock (LibChain.reads st))%Q ->
  is_available p = true ->
  name <> "Alpha Vantage"%string ->
  let out := LibChain.visit listing clock name p st in
  (exists batch results, snd out = Some (name, batch, Ok results))
  /\ (LibChain.provider_cooldowns (fst out) !! name = None
      \/ (name = "Finnhub"%string
          /\ LibChain.provider_cooldowns (fst out) !! name
             = Some (clock (S (LibChain.reads st)) + 60)%Q)).
Proof.
  intros Hcd Hexp Hav Hname out. unfold out, LibChain.visit. rewrite Hcd.
  rewrite (proj2 (PyFacts.ltb_ge _ _) Hexp), Hav. cbn [negb].
  unfold LibChain.attempt. apply String.eqb_neq in Hname. rewrite Hname. cbn [andb].
  unfold LibChain.provider_fetch. rewrite Hav. cbn [negb].
  match goal with |- context [merge_results ?r ?s] => destruct (merge_results r s) as [a r'] end.
  cbn [fst snd]. split; [eauto|].
  destruct (Py.ltb _ _); cbn [andb].
  - destruct (String.eqb name "Finnhub") eqn:F.
    + right. apply String.eqb_eq in F. split; [exact F|]. cbn. apply lookup_insert_eq.
    + left. cbn. apply lookup_delete_eq.
  - left. cbn. apply lookup_delete_eq.
Qed.

Lemma lib_chain_retries_after_expiry_witness :
  let st := {| LibChain.all_results := ∅;
               LibChain.remaining_symbols := {[ "AAPL"%string ]};
               LibChain.provider_cooldowns := {[ "Finnhub"%string := 60%Q ]};
               LibChain.reads := 0 |} in
  let out := LibChain.visit elements (fun _ => 61%Q) "Finnhub" (generous Finnhub) st in
  (exists batch results, snd out = Some ("Finnhub"%string, batch, Ok results))
  /\ (LibChain.provider_cooldowns (fst out) !! "Finnhub"%string = None
      \/ ("Finnhub"%string = "Finnhub"%string
          /\ LibChain.provider_cooldowns (fst out) !! "Finnhub"%string
             = Some ((fun _ : nat => 61%Q) 1%nat + 60)%Q)).
Proof.
  apply (lib_chain_retries_after_expiry elements (fun _ => 61%Q) "Finnhub" (generous Finnhub)
           {| LibChain.all_results := ∅;
              LibChain.remaining_symbols := {[ "AAPL"%string ]};
              LibChain.provider_cooldowns := {[ "Finnhub"%string := 60%Q ]};
              LibChain.reads := 0 |} 60%Q).
  - vm_compute. reflexivity.
  - vm_compute. congruence.
  - reflexivity.
  - discriminate.
Defined.

End ChainMore.

(** ** services/broker/alpaca_broker.py *)

Module BrokerSpec.
Import Py Broker.
Local Open Scope Q_scope.

Lemma truthy_true (v : option string) :
  truthy v = true <-> exists c s, v = Some (String c s).
Proof.
  destruct v as [[|c s]|]; cbn; split; try discriminate; eauto;
    intros (c' & s' & H); discriminate H.
Qed.

(** X20.  The broker's client is created against the live endpoint exactly
    when both credentials are set, TRADING_MODE is "live",
    LIVE_TRADING_ENABLED is "true" and LIVE_CONFIRM_PHRASE is the agreed
    phrase; a live request without the confirmations falls back to paper. *)
Theorem broker_is_live_only_when_confirmed (env : Environ) :
  (new_broker env = Ok ("live"%string, false)
     <-> truthy (ALPACA_KEY_ID env) = true /\ truthy (ALPACA_SECRET_KEY env) = true
         /\ TRADING_MODE env = Some "live"%string
         /\ LIVE_TRADING_ENABLED env = Some "true"%string
         /\ LIVE_CONFIRM_PHRASE env = Some "I_UNDERSTAND_THE_RISKS"%string)
  /\ (forall the_mode, new_broker env = Ok (the_mode, false) -> the_mode = "live"%string)
  /\ (TRADING_MODE env = Some "live"%string ->
      LIVE_TRADING_ENABLED env <> Some "true"%string ->
      _determine_mode env = "paper"%string).
Proof.
  assert (Hmode : _determine_mode env = "live"%string
                  <-> TRADING_MODE env = Some "live"%string
                      /\ LIVE_TRADING_ENABLED env = Some "true"%string
                      /\ LIVE_CONFIRM_PHRASE env = Some "I_UNDERSTAND_THE_RISKS"%string).
  { unfold _determine_mode.
    destruct (TRADING_MODE env) as [m|], (LIVE_TRADING_ENABLED env) as [e|],
      (LIVE_CONFIRM_PHRASE env) as [ph|]; unfold default; cbn [from_option];
      unfold Datatypes.id;
      repeat match goal with
             | |- context [String.eqb ?a ?b] => destruct (String.eqb_spec a b)
             end; cbn [negb andb]; subst; intuition congruence. }
  assert (Hpaper : forall m, new_broker env = Ok (m, false) ->
                             m = "live"%string /\ _determine_mode env = "live"%string
                             /\ truthy (ALPACA_KEY_ID env) = true
                             /\ truthy (ALPACA_SECRET_KEY env) = true).
  { intros m. unfold new_broker, _get_client.
    destruct (truthy (ALPACA_KEY_ID env)), (truthy (ALPACA_SECRET_KEY env));
      cbn [negb orb]; try discriminate.
    destruct (String.eqb (_determine_mode env) "live") eqn:L; [|discriminate].
    apply String.eqb_eq in L. intros [= <-]. auto. }
  split; [|split].
  - split.
    + intros H. apply Hpaper in H. destruct H as (_ & Hm & Hk & Hs).
      apply Hmode in Hm. tauto.
    + intros (Hk & Hs & Hrest). apply Hmode in Hrest.
      unfold new_broker, _get_client. rewrite Hk, Hs, Hrest. reflexivity.
  - intros m H. exact (proj1 (Hpaper m H)).
  - intros Hlive Hen. unfold _determine_mode. rewrite Hlive.
    destruct (LIVE_TRADING_ENABLED env) as [e|]; unfold default; cbn [from_option];
      unfold Datatypes.id; cbn [String.eqb Ascii.eqb Bool.eqb]; [|reflexivity].
    destruct (String.eqb_spec e "true"); [congruence | reflexivity].
Qed.

(** Live requested with the phrase but without LIVE_TRADING_ENABLED: the
    broker is built in paper mode. *)
Lemma broker_is_live_only_when_confirmed_witness :
  let env := {| TRADING_MODE := Some "live"%string; LIVE_TRADING_ENABLED := None;
                LIVE_CONFIRM_PHRASE := Some "I_UNDERSTAND_THE_RISKS"%string;
                ALPACA_KEY_ID := Some "key"%string;
                ALPACA_SECRET_KEY := Some "secret"%string |} in
  _determine_mode env = "paper"%string /\ new_broker env = Ok ("paper"%string, true).
Proof.
  intros env. split; [|reflexivity].
  apply (proj2 (proj2 (broker_is_live_only_when_confirmed env))); [reflexivity|discriminate].
Defined.

Section Orders.
Variable time_in_force_of : string -> string.
Variable submit_order : OrderRequest -> result BrokerOrder.
Variable save_order : BrokerOrder -> result unit.

(** X21.  [place_order] returns a receipt only when the kill switch was
    read and is not "true", a request was prepared, the trading client
    accepted it and the order row was saved; the receipt echoes the caller's
    symbol, side, quantity and order type and carries the client's id and
    status.  So with the switch on, or unreadable, nothing is returned,
    whatever the client would have answered. *)
Theorem place_order_receipt_needs_every_step
    (kill_switch : result (option string))
    (symbol side : string) (qty : Z) (order_type : string)
    (limit_price stop_price : option Q) (time_in_force : string) (receipt : Receipt) :
  place_order time_in_force_of kill_switch submit_order save_order
    symbol side qty order_type limit_price stop_price time_in_force = Ok receipt ->
  exists ks request order,
    kill_switch = Ok ks /\ ks <> Some "true"%string
    /\ prepare time_in_force_of symbol side qty order_type limit_price stop_price
         time_in_force = Ok request
    /\ submit_order request = Ok order
    /\ save_order order = Ok tt
    /\ receipt = {| r_order_id := id order; r_symbol := symbol; r_side := side;
                    r_qty := qty; r_order_type := order_type;
                    r_status := order_status order;
                    r_submitted_at := submitted_at order |}.
Proof.
  unfold place_order. destruct kill_switch as [ks|e]; [|discriminate].
  cbn -[prepare].
  destruct (match ks with Some v => String.eqb v "true" | None => false end) eqn:K;
    [discriminate|].
  destruct (prepare _ _ _ _ _ _ _ _) as [request|e] eqn:P; [|discriminate].
  cbn. destruct (submit_order request) as [order|e] eqn:S; [|discriminate].
  cbn. destruct (save_order order) as [[]|e] eqn:D; [|discriminate].
  cbn. intros [= <-]. exists ks, request, order. repeat split; try assumption.
  intros ->. discriminate K.
Qed.

(** X22.  A request is prepared only for a market order, for a limit order
    with a non-zero limit price, or for a stop order with a non-zero stop
    price (order type compared in lower case); hence an order of the plan,
    which [_execute_trades] submits without prices, reaches the trading
    client only if its type is market, and is refused otherwise. *)
Theorem only_market_orders_of_a_plan_are_submitted
    (ks : option string) (order : Risk.Order) :
  (forall symbol side qty order_type limit_price stop_price time_in_force,
      is_ok (prepare time_in_force_of symbol side qty order_type limit_price stop_price
               time_in_force) = true
      <-> Py.lower order_type = "market"%string
          \/ (Py.lower order_type = "limit"%string /\ missing limit_price = false)
          \/ (Py.lower order_type = "stop"%string /\ missing stop_price = false))
  /\ (Py.lower (default "market"%string (Risk.order_type order)) <> "market"%string ->
      exists msg,
        place_plan_order time_in_force_of (Ok ks) submit_order save_order order = Raise msg
        /\ place_plan_order time_in_force_of (Ok ks) accepting (fun _ => Ok tt) order
           = Raise msg).
Proof.
  split.
  - intros symbol side qty order_type limit_price stop_price time_in_force.
    unfold prepare.
    destruct (String.eqb (Py.lower order_type) "market") eqn:M.
    { apply String.eqb_eq in M. cbn. tauto. }
    apply String.eqb_neq in M.
    destruct (String.eqb (Py.lower order_type) "limit") eqn:L.
    { apply String.eqb_eq in L. destruct (missing limit_price); cbn; split; auto;
        try discriminate.
      intros [H|[[_ H]|[H _]]]; congruence. }
    apply String.eqb_neq in L.
    destruct (String.eqb (Py.lower order_type) "stop") eqn:S.
    { apply String.eqb_eq in S. destruct (missing stop_price); cbn; split; auto;
        try discriminate.
      intros [H|[[H _]|[_ H]]]; congruence. }
    apply String.eqb_neq in S. cbn. split; [discriminate|].
    intros [H|[[H _]|[H _]]]; congruence.
  - intros Hty. unfold place_plan_order, place_order.
    destruct (match ks with Some v => String.eqb v "true" | None => false end); [eauto|].
    unfold prepare. apply String.eqb_neq in Hty. rewrite Hty.
    destruct (String.eqb _ "limit"); cbn [missing]; [eauto|].
    destruct (String.eqb _ "stop"); cbn [missing]; eauto.
Qed.
End Orders.

Lemma place_order_receipt_needs_every_step_witness :
  exists ks request order,
    Ok None = Ok ks /\ ks <> Some "true"%string
    /\ prepare (fun s => s) "AAPL" "buy" 18 "market" None None "day" = Ok request
    /\ accepting request = Ok order
    /\ Ok tt = Ok tt
    /\ {| r_order_id := "1"; r_symbol := "AAPL"; r_side := "buy"; r_qty := 18;
          r_order_type := "market"; r_status := "accepted"; r_submitted_at := None |}
       = {| r_order_id := id order; r_symbol := "AAPL"; r_side := "buy";
            r_qty := 18; r_order_type := "market";
            r_status := order_status order;
            r_submitted_at := submitted_at order |}.
Proof.
  apply (place_order_receipt_needs_every_step (fun s => s) accepting (fun _ => Ok tt)
           (Ok None) "AAPL" "buy" 18 "market" None None "day").
  reflexivity.
Defined.

Lemma only_market_orders_of_a_plan_are_submitted_witness :
  let order := {| Risk.symbol := "AAPL"; Risk.side := "buy"; Risk.qty := 1;
                  Risk.order_type := Some "limit"%string; Risk.price := Some 100;
                  Risk.stop_loss := None; Risk.take_profit := None;
                  Risk.confidence := None |} in
  exists msg,
    place_plan_order (fun s => s) (Ok None) accepting (fun _ => Ok tt) order = Raise msg
    /\ place_plan_order (fun s => s) (Ok None) accepting (fun _ => Ok tt) order = Raise msg.
Proof.
  intros order.
  apply (proj2 (only_market_orders_of_a_plan_are_submitted (fun s => s) accepting
                  (fun _ => Ok tt) None order)).
  discriminate.
Defined.

End BrokerSpec.

(** ** services/api/pipeline.py *)

Module PipelineMore.
Import Py Pipeline.
Local Open Scope Q_scope.

(** *** The circuit-breaker check *)

Lemma switch_off (w : World) :
  kill_switch w <> Some "true"%string ->
  match kill_switch w with Some v => String.eqb v "true" | None => false end = false.
Proof.
  intros H. destruct (kill_switch w) as [v|]; [|reflexivity].
  apply String.eqb_neq. congruence.
Qed.

Lemma check_circuit_breakers_switch_on (env : Env) (w : World) :
  redis_error env = None -> kill_switch w = Some "true"%string ->
  _check_circuit_breakers env w = (Ok false, w).
Proof.
  intros H1 H2. unfold _check_circuit_breakers, bindM, redis_get, ret.
  rewrite H1, H2. reflexivity.
Qed.

Lemma check_circuit_breakers_keeps_plans (env : Env) (w : World) :
  trade_plans (snd (_check_circuit_breakers env w)) = trade_plans w.
Proof.
  unfold _check_circuit_breakers, bindM, redis_get, redis_set, lift, ret.
  destruct (redis_error env); [reflexivity|].
  destruct (match kill_switch w with Some v => String.eqb v "true" | None => false end);
    [reflexivity|].
  destruct (breaker_account env) as [a|]; [|reflexivity].
  destruct (Py.ltb 0 (last_equity a)); [|reflexivity].
  destruct (Py.ltb _ _); reflexivity.
Qed.

(** X23.  A daily return below minus the drawdown threshold halts the run,
    writes nothing to the plan table and sets the kill switch; from then on
    every run that can read the switch halts at once and changes nothing,
    whatever its flags, its pipeline and its account. *)
Theorem drawdown_halt_latches_the_kill_switch
    (self : TradingPipeline) (env : Env) (force dry_run : bool) (w : World) (a : Account) :
  redis_error env = None ->
  kill_switch w <> Some "true"%string ->
  breaker_account env = Ok a ->
  0 < last_equity a ->
  (equity a - last_equity a) / last_equity a < - env_drawdown_halt env ->
  exists w',
    run self env force dry_run w = (Halted "Circuit breaker triggered", w')
    /\ kill_switch w' = Some "true"%string
    /\ trade_plans w' = trade_plans w
    /\ forall self' env' force' dry_run',
         redis_error env' = None ->
         run self' env' force' dry_run' w' = (Halted "Circuit breaker triggered", w').
Proof.
  intros Hr Hk Ha Hpos Hdd.
  exists {| kill_switch := Some "true"%string; trade_plans := trade_plans w |}.
  split; [|split; [reflexivity|split; [reflexivity|]]].
  - apply PyFacts.ltb_lt in Hpos. apply PyFacts.ltb_lt in Hdd.
    unfold run, run_body, bindM, _check_circuit_breakers, bindM, redis_get, lift,
      redis_set, ret.
    rewrite Hr, (switch_off w Hk), Ha, Hpos, Hdd. reflexivity.
  - intros self' env' force' dry_run' Hr'. unfold run, run_body, bindM.
    rewrite check_circuit_breakers_switch_on by (assumption || reflexivity).
    reflexivity.
Qed.

Lemma drawdown_halt_latches_the_kill_switch_witness :
  let env := env_with (Ok flat_account) (fun _ => Ok None) accept in
  let crashed := with_breaker_account env {| equity := 97000; last_equity := 100000 |} in
  exists w',
    run paper_pipeline crashed false false fresh_world
    = (Halted "Circuit breaker triggered", w')
    /\ kill_switch w' = Some "true"%string
    /\ trade_plans w' = trade_plans fresh_world
    /\ forall self' env' force' dry_run',
         redis_error env' = None ->
         run self' env' force' dry_run' w' = (Halted "Circuit breaker triggered", w').
Proof.
  intros env crashed.
  apply (drawdown_halt_latches_the_kill_switch paper_pipeline crashed false false fresh_world
           {| equity := 97000; last_equity := 100000 |});
    [reflexivity | discriminate | reflexivity | reflexivity | reflexivity].
Defined.

(** X24.  With the switch off, the pipeline's own drawdown check and the
    risk manager's [check_circuit_breakers] give the same verdict on the same
    account when they read the same threshold: the risk stage can only trip
    its breaker if the account moved between the two reads. *)
Theorem pipeline_and_risk_breakers_agree
    (env : Env) (w : World) (a : Account) :
  redis_error env = None ->
  kill_switch w <> Some "true"%string ->
  breaker_account env = Ok a ->
  Risk.daily_drawdown_halt (risk_manager env) = env_drawdown_halt env ->
  fst (_check_circuit_breakers env w)
  = Ok (fst (Risk.check_circuit_breakers (fmt_pct2 env) (risk_manager env) (account_data a))).
Proof.
  intros Hr Hk Ha Hth.
  unfold _check_circuit_breakers, bindM, redis_get, lift, redis_set, ret,
    Risk.check_circuit_breakers, account_data.
  rewrite Hr, (switch_off w Hk), Ha, Hth.
  cbn [Risk.equity Risk.last_equity]. unfold default; cbn [from_option].
  unfold Datatypes.id.
  destruct (Py.ltb 0 (last_equity a)); [|reflexivity].
  destruct (Py.ltb _ _); reflexivity.
Qed.

Lemma pipeline_and_risk_breakers_agree_witness :
  fst (_check_circuit_breakers calm_env fresh_world)
  = Ok (fst (Risk.check_circuit_breakers (fmt_pct2 calm_env) (risk_manager calm_env)
               (account_data flat_account))).
Proof.
  apply (pipeline_and_risk_breakers_agree calm_env fresh_world flat_account);
    [reflexivity | discriminate | reflexivity | reflexivity].
Defined.

(** *** The plan table *)

Lemma lookup_last_row (rows : list TradePlan) (row : TradePlan) :
  (rows ++ [row]) !! (S (length rows) - 1)%nat = Some row.
Proof.
  replace (S (length rows) - 1)%nat with (length rows + 0)%nat by lia.
  by rewrite lookup_app_r, Nat.add_comm, Nat.add_sub by lia.
Qed.

Lemma insert_last_row (rows : list TradePlan) (row row' : TradePlan) :
  <[(S (length rows) - 1)%nat := row']> (rows ++ [row]) = rows ++ [row'].
Proof.
  replace (S (length rows) - 1)%nat with (length rows + 0)%nat by lia.
  by rewrite insert_app_r.
Qed.

(** X25.  A run never changes the plans already in the table and adds at
    most one; the row it adds is unapproved, carries the pipeline's mode and
    the symbols of its own orders.  A halted run adds none; a completed run
    adds exactly one, whose id and order count are the ones it reports. *)
Theorem run_appends_at_most_one_plan
    (self : TradingPipeline) (env : Env) (force dry_run : bool) (w : World) :
  exists new,
    trade_plans (snd (run self env force dry_run w)) = trade_plans w ++ new
    /\ (length new <= 1)%nat
    /\ Forall (fresh_row self) new
    /\ (forall reason, fst (run self env force dry_run w) = Halted reason -> new = [])
    /\ (forall plan_id the_mode n_orders was_executed,
          fst (run self env force dry_run w)
          = Completed plan_id the_mode n_orders was_executed ->
          plan_id = S (length (trade_plans w))
          /\ exists row, new = [row] /\ n_orders = length (plan_orders row)).
Proof.
  assert (Hnone : forall (r : RunResult) (w0 : World),
             trade_plans w0 = trade_plans w -> (forall a b c d, r <> Completed a b c d) ->
             exists new,
               trade_plans (snd (r, w0)) = trade_plans w ++ new
               /\ (length new <= 1)%nat /\ Forall (fresh_row self) new
               /\ (forall reason, fst (r, w0) = Halted reason -> new = [])
               /\ (forall plan_id the_mode n_orders was_executed,
                     fst (r, w0) = Completed plan_id the_mode n_orders was_executed ->
                     plan_id = S (length (trade_plans w))
                     /\ exists row, new = [row] /\ n_orders = length (plan_orders row))).
  { intros r w0 Hw0 Hr. exists []. cbn [fst snd]. rewrite app_nil_r.
    repeat split; auto; try constructor; intros; exfalso; eapply Hr; eassumption. }
  assert (Hone : forall (r : RunResult) (rows : list TradePlan) (ks : option string)
                        (row : TradePlan),
             rows = trade_plans w -> fresh_row self row ->
             (forall reason, r <> Halted reason) ->
             (forall a b c d, r = Completed a b c d ->
                              a = S (length rows) /\ c = length (plan_orders row)) ->
             exists new,
               trade_plans (snd (r, {| kill_switch := ks; trade_plans := rows ++ [row] |}))
               = trade_plans w ++ new
               /\ (length new <= 1)%nat /\ Forall (fresh_row self) new
               /\ (forall reason,
                     fst (r, {| kill_switch := ks; trade_plans := rows ++ [row] |})
                     = Halted reason -> new = [])
               /\ (forall plan_id the_mode n_orders was_executed,
                     fst (r, {| kill_switch := ks; trade_plans := rows ++ [row] |})
                     = Completed plan_id the_mode n_orders was_executed ->
                     plan_id = S (length (trade_plans w))
                     /\ exists row, new = [row] /\ n_orders = length (plan_orders row))).
  { intros r rows ks row -> Hrow Hh Hc. exists [row]. cbn [fst snd trade_plans].
    split; [reflexivity|]. split; [cbn; lia|].
    split; [constructor; [exact Hrow | constructor]|].
    split; [intros reason E; by destruct (Hh reason)|].
    intros a b c d E. destruct (Hc a b c d E) as [-> ->]. eauto. }
  unfold run, run_body, bindM, ret.
  pose proof (check_circuit_breakers_keeps_plans env w) as Hk.
  destruct (_check_circuit_breakers env w) as [[ok|e] w0]; cbn [snd] in Hk;
    [|by apply Hnone].
  destruct ok; cbn [negb]; [|by apply Hnone].
  set (plan := _apply_risk_management env _).
  unfold _save_trade_plan. destruct (save_error env); [by apply Hnone|].
  assert (Hrow : forall b, fresh_row self (set_executed (db_plan_of self plan) b)).
  { intros b. by repeat split. }
  destruct (auto_execute self && negb dry_run).
  - unfold _execute_trades. cbn [trade_plans kill_switch orders].
    destruct (submit_loop env 0 (orders plan) [] []) as [sub fl].
    destruct (update_error env).
    + apply Hone; [by rewrite Hk | by repeat split | discriminate | discriminate].
    + rewrite lookup_last_row, insert_last_row.
      apply Hone; [by rewrite Hk | apply Hrow | discriminate |].
      by intros a b c d [= <- _ <- _].
  - apply Hone; [by rewrite Hk | by repeat split | discriminate |].
    by intros a b c d [= <- _ <- _].
Qed.

(** *** Execution *)

Lemma submit_loop_accounts (env : Env) (i : nat) (os : list Risk.Order)
    (sub : list Receipt) (fl : list (string * string)) :
  exists s f,
    submit_loop env i os sub fl = (sub ++ s, fl ++ f)
    /\ (length s + length f = length os)%nat
    /\ map fst f `sublist_of` map Risk.symbol os.
Proof.
  revert i sub fl. induction os as [|o rest IH]; intros i sub fl; cbn [submit_loop].
  - exists [], []. rewrite !app_nil_r. repeat split. constructor.
  - destruct (place_order env i o) as [receipt|e].
    + destruct (IH (S i) (sub ++ [receipt]) fl) as (s & f & -> & Hlen & Hsub).
      exists (receipt :: s), f. rewrite <- app_assoc. split; [reflexivity|].
      split; [cbn; lia|]. cbn [map]. by apply sublist_cons.
    + destruct (IH (S i) sub (fl ++ [(Risk.symbol o, e)])) as (s & f & -> & Hlen & Hsub).
      exists s, ((Risk.symbol o, e) :: f). rewrite <- app_assoc. split; [reflexivity|].
      split; [cbn; lia|]. cbn [map fst]. by apply sublist_skip.
Qed.

(** X26.  When [_execute_trades] returns, every order of the plan is
    accounted for once: the submitted and the failed entries add up to the
    total, which is the number of orders, and the failed symbols are symbols
    of the plan in its order.  It writes no row and leaves the switch. *)
Theorem execute_trades_accounts_for_every_order
    (env : Env) (trade_plan : TradePlanDict) (plan_id : nat) (w w' : World)
    (results : ExecutionResults) :
  _execute_trades env trade_plan plan_id w = (Ok results, w') ->
  total results = length (orders trade_plan)
  /\ (length (submitted results) + length (failed results) = total results)%nat
  /\ map fst (failed results) `sublist_of` map Risk.symbol (orders trade_plan)
  /\ kill_switch w' = kill_switch w
  /\ length (trade_plans w') = length (trade_plans w).
Proof.
  unfold _execute_trades.
  destruct (submit_loop_accounts env 0 (orders trade_plan) [] []) as (s & f & -> & Hlen & Hsub).
  cbn [app]. destruct (update_error env); [discriminate|].
  destruct (trade_plans w !! (plan_id - 1)%nat); intros [= <- <-];
    cbn [total submitted failed kill_switch trade_plans];
    rewrite ?length_insert; auto.
Qed.

Lemma execute_trades_accounts_for_every_order_witness :
  let plan := with_orders (_create_trade_plan paper_pipeline rejecting_env [strong_buy])
                [sized_order; sized_order] in
  let results := {| submitted := [];
                    failed := [("AAPL", "insufficient buying power");
                               ("AAPL", "insufficient buying power")]%string;
                    total := 2 |} in
  total results = length (orders plan)
  /\ (length (submitted results) + length (failed results) = total results)%nat
  /\ map fst (failed results) `sublist_of` map Risk.symbol (orders plan)
  /\ kill_switch fresh_world = kill_switch fresh_world
  /\ length (trade_plans fresh_world) = length (trade_plans fresh_world).
Proof.
  intros plan results.
  apply (execute_trades_accounts_for_every_order rejecting_env plan 1 fresh_world fresh_world
           results).
  reflexivity.
Defined.

(** *** The risk stage inside a run *)

Lemma risk_stage_orders (env : Env) (plan : TradePlanDict) :
  (signals plan = [] -> orders plan = []) ->
  Forall (Risk.sized_buy (signals plan)) (orders (_apply_risk_management env plan))
  /\ (length (orders (_apply_risk_management env plan)) <= 20)%nat.
Proof.
  intros Hempty. unfold _apply_risk_management.
  destruct (risk_management_body env plan) as [plan'|e] eqn:B;
    [|cbn [orders length]; split; [constructor | lia]].
  revert B. unfold risk_management_body.
  destruct (risk_account env) as [acct|]; [|discriminate].
  destruct (get_positions env) as [pos|]; [|discriminate].
  destruct (Risk.check_circuit_breakers _ _ _) as [breaker_ok breaker_msg].
  destruct breaker_ok; cbn [negb];
    [|intros [= <-]; cbn [orders length]; split; [constructor | lia]].
  assert (Hprop : forall proposed,
             match signals plan with
             | [] => Ok (orders plan)
             | _ :: _ => Risk.optimize_portfolio (latest_price env) (risk_manager env)
                           (signals plan) (account_data acct)
             end = Ok proposed ->
             Forall (Risk.sized_buy (signals plan)) proposed /\ (length proposed <= 20)%nat).
  { intros proposed. destruct (signals plan) as [|s rest] eqn:S.
    - intros [= <-]. rewrite Hempty by reflexivity. split; [constructor | cbn; lia].
    - rewrite <- S. unfold Risk.optimize_portfolio. intros H.
      eapply (RiskMore.optimize_loop_invariant (latest_price env) (risk_manager env) _
                (signals plan)) in H; try reflexivity.
      + destruct H as (_ & Hb & Hc). split; [exact Hb|].
        rewrite length_take in Hc. change (length (@nil Risk.Order)) with 0%nat in Hc. lia.
      + intros x Hx. apply RiskMore.sorted_by_score_In. apply list_elem_of_In.
        eapply (subseteq_take 20). by apply list_elem_of_In.
      + by left.
      + constructor. }
  destruct (match signals plan with [] => _ | _ => _ end) as [proposed|]; [|discriminate].
  destruct (Hprop proposed eq_refl) as [Hsized Hlen].
  destruct (Risk.check_exposure_limits _ _ _ _ _) as [[approved_orders violations]|] eqn:C;
    [|discriminate].
  intros [= <-]. cbn [orders].
  apply RiskMore.exposure_loop_accounts in C.
  destruct C as (kept & -> & Hsub & _). cbn [app].
  split.
  - rewrite Forall_forall in Hsized. apply Forall_forall. intros x Hx.
    apply Hsized. eapply elem_of_sublist; eassumption.
  - apply sublist_length in Hsub. lia.
Qed.

(** X27.  Whatever the signals, the orders that leave the risk stage of a
    run were all built by [optimize_portfolio] for a buy signal of the run
    (at least one share, priced, with stop and target), and there are at
    most twenty; the orders that [_create_trade_plan] drafted with ten
    shares each never reach them: the stage gives the same plan when the
    draft has no orders at all. *)
Theorem risk_stage_replaces_the_drafted_orders
    (self : TradingPipeline) (env : Env) (sigs : list Signals.SignalEntry) :
  let draft := _create_trade_plan self env sigs in
  Forall (Risk.sized_buy sigs) (orders (_apply_risk_management env draft))
  /\ (length (orders (_apply_risk_management env draft)) <= 20)%nat
  /\ _apply_risk_management env draft = _apply_risk_management env (with_orders draft []).
Proof.
  intros draft.
  assert (Hempty : signals draft = [] -> orders draft = []).
  { cbn [draft _create_trade_plan signals orders]. by intros ->. }
  destruct (risk_stage_orders env draft Hempty) as [Hs Hl].
  split; [exact Hs|]. split; [exact Hl|].
  destruct sigs as [|s rest]; reflexivity.
Qed.

(** X28.  When the signal generator raises, the run goes on with no
    signals: the plan that leaves the risk stage has no orders, and a run
    that completes reports zero orders. *)
Theorem failed_signal_generation_gives_an_empty_plan
    (self : TradingPipeline) (env : Env) (force dry_run : bool) (w : World) (e : string) :
  generate_signals env = Raise e ->
  (forall market_data news_data,
      orders (_apply_risk_management env
                (_create_trade_plan self env (_generate_signals env market_data news_data)))
      = [])
  /\ (forall plan_id the_mode n_orders was_executed,
        fst (run self env force dry_run w)
        = Completed plan_id the_mode n_orders was_executed -> n_orders = 0%nat).
Proof.
  intros Hgen.
  assert (Hplan : forall market_data news_data,
      orders (_apply_risk_management env
                (_create_trade_plan self env (_generate_signals env market_data news_data)))
      = []).
  { intros market_data news_data. unfold _generate_signals. rewrite Hgen.
    destruct (risk_stage_orders env (_create_trade_plan self env [])) as [H _];
      [reflexivity|].
    cbn [_create_trade_plan signals] in H.
    destruct (orders _) as [|o os]; [reflexivity|].
    apply Forall_cons_1 in H. destruct H as [(_ & _ & _ & _ & _ & _ & s & [] & _) _]. }
  split; [exact Hplan|].
  intros plan_id the_mode n_orders was_executed. unfold run, run_body, bindM, ret.
  destruct (_check_circuit_breakers env w) as [[ok|] w0]; [|discriminate].
  destruct ok; cbn [negb]; [|discriminate].
  rewrite Hplan.
  destruct (_save_trade_plan _ _ _ w0) as [[pid|] w1]; [|discriminate].
  destruct (auto_execute self && negb dry_run).
  - destruct (_execute_trades _ _ _ w1) as [[res|] w2]; [|discriminate].
    cbn [fst orders]. by intros [= _ _ <- _].
  - cbn [fst]. rewrite Hplan. by intros [= _ _ <- _].
Qed.

Lemma failed_signal_generation_gives_an_empty_plan_witness :
  let env := with_signals calm_env (Raise "no price data") in
  (forall market_data news_data,
      orders (_apply_risk_management env
                (_create_trade_plan paper_pipeline env
                   (_generate_signals env market_data news_data)))
      = [])
  /\ (forall plan_id the_mode n_orders was_executed,
        fst (run paper_pipeline env false false fresh_world)
        = Completed plan_id the_mode n_orders was_executed -> n_orders = 0%nat).
Proof.
  intros env.
  apply (failed_signal_generation_gives_an_empty_plan paper_pipeline env false false
           fresh_world "no price data").
  reflexivity.
Defined.

(** *** The stages with a handler of their own *)

Lemma submit_loop_side_stages (env : Env) (bw : result (list string))
    (rdi pdr : result unit) (os : list Risk.Order) (i : nat) (sub : list Receipt)
    (fl : list (string * string)) :
  submit_loop (with_side_stages env bw rdi pdr) i os sub fl = submit_loop env i os sub fl.
Proof.
  revert i sub fl. induction os as [|o rest IH]; intros i sub fl; [reflexivity|].
  cbn [submit_loop].
  change (place_order (with_side_stages env bw rdi pdr) i o) with (place_order env i o).
  destruct (place_order env i o); apply IH.
Qed.

(** X29.  With the answers of the other collaborators fixed, the result of
    a run and the stores it leaves are the same whether the watchlist
    builder, the market-data ingest and the reporter return or raise: none
    of the three can fail or halt a run. *)
Theorem side_stage_failures_do_not_change_a_run
    (self : TradingPipeline) (env : Env) (force dry_run : bool) (w : World)
    (bw : result (list string)) (rdi pdr : result unit) :
  run self (with_side_stages env bw rdi pdr) force dry_run w = run self env force dry_run w.
Proof.
  unfold run, run_body, bindM.
  replace (_check_circuit_breakers (with_side_stages env bw rdi pdr) w)
    with (_check_circuit_breakers env w) by reflexivity.
  destruct (_check_circuit_breakers env w) as [[ok|] w0]; [|reflexivity].
  destruct ok; cbn [negb]; [|reflexivity].
  replace (_apply_risk_management (with_side_stages env bw rdi pdr)
             (_create_trade_plan self (with_side_stages env bw rdi pdr)
                (_generate_signals (with_side_stages env bw rdi pdr)
                   (_fetch_market_data (with_side_stages env bw rdi pdr))
                   (_ingest_news (with_side_stages env bw rdi pdr)))))
    with (_apply_risk_management env
            (_create_trade_plan self env
               (_generate_signals env (_fetch_market_data env) (_ingest_news env))))
    by reflexivity.
  set (plan := _apply_risk_management env _).
  replace (_save_trade_plan self (with_side_stages env bw rdi pdr) plan w0)
    with (_save_trade_plan self env plan w0) by reflexivity.
  destruct (_save_trade_plan self env plan w0) as [[plan_id|] w1]; [|reflexivity].
  destruct (auto_execute self && negb dry_run); [|reflexivity].
  replace (_execute_trades (with_side_stages env bw rdi pdr) plan plan_id w1)
    with (_execute_trades env plan plan_id w1); [reflexivity|].
  unfold _execute_trades. by rewrite submit_loop_side_stages.
Qed.

End PipelineMore.
